(** * Session guardian and session-state tool: a shallow embedding

    This development embeds the two extension modules of the repository,

    - [modules/session-guardian/amplifier_session_guardian/__init__.py]
      (the token tracker and its two hook handlers), and
    - [modules/tool-session-state/__init__.py]
      (the snapshot store behind the [session_state] tool),

    and proves the properties their specification states about them.

    Python is dynamically typed and both modules take host data of type
    [Any], so the embedding starts from a small universe of Python values
    with the operations the source applies to them.  An operation that
    raises in Python returns [Raise] here, and the [try]/[except] blocks of
    the source are written out with [try_except].

    Numbers are Python's: [int] is [Z], [float] is IEEE 754 binary64 with
    the operations of the standard library's [SpecFloat] (round to nearest
    even), and comparisons are exact on values.  The JSON codec, the text
    of exceptions and the clock belong to the Python library and the
    operating system, and the result classes to the host; the store takes
    the codec, the texts, the clock and the host's answer to an error
    result as parameters. *)

From stdpp Require Import gmap strings list fin_maps sorting pretty.
From Stdlib Require Import ZArith QArith Lia Bool.
From Stdlib Require Import Floats.SpecFloat.

Set Warnings "-register-all".

Local Open Scope string_scope.
Local Open Scope Z_scope.

(** ** Python values *)

Module Py.

(** The exception classes the modelled code can meet.  All of them derive
    from [Exception], so an [except Exception] clause catches each.
    [ValidationError] is the one a host class raises when it refuses the
    arguments it is built with. *)
Inductive exn :=
| TypeError
| AttributeError
| ValueError
| OverflowError
| ZeroDivisionError
| KeyError
| OSError
| JSONDecodeError
| ValidationError.

Inductive result (A : Type) :=
| Ok (a : A)
| Raise (e : exn).
Arguments Ok {A} a.
Arguments Raise {A} e.

Definition bind {A B} (m : result A) (k : A -> result B) : result B :=
  match m with
  | Ok a => k a
  | Raise e => Raise e
  end.

Notation "'do' x <- m ; k" := (bind m (fun x => k))
  (at level 10, x name, m at level 100, k at level 200).

(** [try: body except Exception: handler]. *)
Definition try_except {A} (body : result A) (handler : A) : A :=
  match body with
  | Ok a => a
  | Raise _ => handler
  end.

(** [None], [bool], [int], [float], [str], [list], [dict] with string keys
    (in insertion order) and plain objects.  An object is the bag of its
    attributes; reading an attribute either yields a value or raises (a
    property whose getter fails). *)
Inductive pyval :=
| VNone
| VBool (b : bool)
| VInt (z : Z)
| VFloat (f : spec_float)
| VStr (s : string)
| VList (l : list pyval)
| VDict (d : list (string * pyval))
| VObj (attrs : list (string * result pyval)).

(** *** Floats: IEEE 754 binary64, as CPython's [float] *)

Definition prec : Z := 53.
Definition emax : Z := 1024.

Definition float_of_Z (z : Z) : spec_float := binary_normalize prec emax z 0 false.

(** [float(n)] for an [int]: correctly rounded, [OverflowError] out of range. *)
Definition int_to_float (z : Z) : result spec_float :=
  match float_of_Z z with
  | S754_infinity _ => Raise OverflowError
  | f => Ok f
  end.

Definition float_is_zero (f : spec_float) : bool :=
  match f with
  | S754_zero _ => true
  | _ => false
  end.

(** The integer [±m·2^e] truncated towards zero: the magnitude is cut, then
    the sign applied. *)
Definition trunc_mag (m : positive) (e : Z) : Z :=
  match e with
  | Zneg p => Z.shiftr (Zpos m) (Zpos p)
  | _ => Z.shiftl (Zpos m) e
  end.

(** [int(f)]: truncation towards zero; [ValueError] on NaN and
    [OverflowError] on an infinity. *)
Definition float_to_int (f : spec_float) : result Z :=
  match f with
  | S754_zero _ => Ok 0
  | S754_nan => Raise ValueError
  | S754_infinity _ => Raise OverflowError
  | S754_finite s m e => Ok (if s then - trunc_mag m e else trunc_mag m e)
  end.

(** [math.floor(f)]: the same errors, rounding towards minus infinity. *)
Definition float_floor (f : spec_float) : result Z :=
  match f with
  | S754_zero _ => Ok 0
  | S754_nan => Raise ValueError
  | S754_infinity _ => Raise OverflowError
  | S754_finite s m e =>
      Ok (match e with
          | Zneg p => Z.shiftr (if s then Zneg m else Zpos m) (Zpos p)
          | _ => Z.shiftl (if s then Zneg m else Zpos m) e
          end)
  end.

(** Neither a negative number nor minus infinity (a zero of either sign
    and NaN pass). *)
Definition not_negative (f : spec_float) : bool :=
  match f with
  | S754_infinity true | S754_finite true _ _ => false
  | _ => true
  end.

(** The numeric tower: [bool] is a subclass of [int]. *)
Inductive num :=
| NI (z : Z)
| NF (f : spec_float).

Definition as_num (v : pyval) : option num :=
  match v with
  | VBool b => Some (NI (Z.b2z b))
  | VInt z => Some (NI z)
  | VFloat f => Some (NF f)
  | _ => None
  end.

(** Comparisons between numbers are exact in CPython, also between an [int]
    and a [float] (the integer is not converted, so nothing is rounded and
    nothing overflows).  Every number but NaN therefore has a place on the
    extended rational line, and is compared there. *)
Inductive xval :=
| NegInf
| Fin (q : Q)
| PosInf.

Definition float_val (f : spec_float) : option xval :=
  match f with
  | S754_nan => None
  | S754_zero _ => Some (Fin (0 # 1))
  | S754_infinity s => Some (if s then NegInf else PosInf)
  | S754_finite s m e =>
      let v := if s then Zneg m else Zpos m in
      Some (Fin (match e with
                 | Zneg p => v # Pos.pow 2 p
                 | _ => Z.shiftl v e # 1
                 end))
  end.

Definition num_val (a : num) : option xval :=
  match a with
  | NI z => Some (Fin (z # 1))
  | NF f => float_val f
  end.

Definition xcompare (a b : xval) : comparison :=
  match a, b with
  | NegInf, NegInf => Eq
  | NegInf, _ => Lt
  | _, NegInf => Gt
  | PosInf, PosInf => Eq
  | PosInf, _ => Gt
  | _, PosInf => Lt
  | Fin x, Fin y => Qcompare x y
  end.

(** [None] is the unordered outcome: one side is a NaN. *)
Definition num_compare (a b : num) : option comparison :=
  match num_val a, num_val b with
  | Some x, Some y => Some (xcompare x y)
  | _, _ => None
  end.

(** The place of a value on the extended rational line, when it has one. *)
Definition val_of (v : pyval) : option xval :=
  match as_num v with
  | Some n => num_val n
  | None => None
  end.

(** Ordering comparisons.  Every comparison in the source has a number on
    one side, so a non-numeric operand means [TypeError]. *)
Definition py_compare (a b : pyval) : result (option comparison) :=
  match as_num a, as_num b with
  | Some x, Some y => Ok (num_compare x y)
  | _, _ => Raise TypeError
  end.

Definition py_lt (a b : pyval) : result bool :=
  do c <- py_compare a b ;
  Ok (match c with Some Lt => true | _ => false end).

Definition py_le (a b : pyval) : result bool :=
  do c <- py_compare a b ;
  Ok (match c with Some Lt | Some Eq => true | _ => false end).

Definition py_gt (a b : pyval) : result bool :=
  do c <- py_compare a b ;
  Ok (match c with Some Gt => true | _ => false end).

Definition py_ge (a b : pyval) : result bool :=
  do c <- py_compare a b ;
  Ok (match c with Some Gt | Some Eq => true | _ => false end).

Definition py_eq_num (a b : pyval) : result bool :=
  do c <- py_compare a b ;
  Ok (match c with Some Eq => true | _ => false end).

Definition num_not_negative (a : num) : Prop :=
  match a with
  | NI z => 0 <= z
  | NF f => not_negative f = true
  end.

Definition num_to_float (a : num) : result spec_float :=
  match a with
  | NI z => int_to_float z
  | NF f => Ok f
  end.

(** [a + b] on numbers; anything else added to a number is a [TypeError]. *)
Definition py_add (a b : pyval) : result pyval :=
  match as_num a, as_num b with
  | Some (NI x), Some (NI y) => Ok (VInt (x + y))
  | Some x, Some y =>
      do fx <- num_to_float x ;
      do fy <- num_to_float y ;
      Ok (VFloat (SFadd prec emax fx fy))
  | _, _ => Raise TypeError
  end.

(** [a / b] on two [int]s: the correctly rounded quotient, computed on the
    integers themselves. *)
Definition int_truediv (a b : Z) : result spec_float :=
  if b =? 0 then Raise ZeroDivisionError
  else
    let s := xorb (a <? 0) (b <? 0) in
    if a =? 0 then Ok (S754_zero s)
    else
      let '(mz, ez, lz) := SFdiv_core_binary prec emax (Z.abs a) 0 (Z.abs b) 0 in
      match binary_round_aux prec emax s mz ez lz with
      | S754_infinity _ => Raise OverflowError
      | f => Ok f
      end.

(** True division [a / b]: always a [float]. *)
Definition py_truediv (a b : pyval) : result spec_float :=
  match as_num a, as_num b with
  | Some (NI x), Some (NI y) => int_truediv x y
  | Some x, Some y =>
      do fx <- num_to_float x ;
      do fy <- num_to_float y ;
      if float_is_zero fy then Raise ZeroDivisionError
      else Ok (SFdiv prec emax fx fy)
  | _, _ => Raise TypeError
  end.

(** [f * n] for a float and an [int] literal. *)
Definition float_mul_int (f : spec_float) (n : Z) : spec_float :=
  SFmul prec emax f (float_of_Z n).

(** Truth value testing ([bool(v)], [if v], [v or w]). *)
Definition truthy (v : pyval) : bool :=
  match v with
  | VNone => false
  | VBool b => b
  | VInt z => negb (z =? 0)
  | VFloat f => negb (float_is_zero f)
  | VStr s => negb (String.eqb s "")
  | VList l => match l with [] => false | _ => true end
  | VDict d => match d with [] => false | _ => true end
  | VObj _ => true
  end.

(** [v or w]. *)
Definition py_or (v w : pyval) : pyval := if truthy v then v else w.

Fixpoint assoc {A} (k : string) (l : list (string * A)) : option A :=
  match l with
  | [] => None
  | (k', v) :: l' => if String.eqb k k' then Some v else assoc k l'
  end.

(** [d.get(k, default)] on a [dict]. *)
Definition dict_get (d : list (string * pyval)) (k : string) (default : pyval) : pyval :=
  match assoc k d with
  | Some v => v
  | None => default
  end.

(** [d[k]] on a [dict]. *)
Definition dict_item (d : list (string * pyval)) (k : string) : result pyval :=
  match assoc k d with
  | Some v => Ok v
  | None => Raise KeyError
  end.

(** [v.get(k)]: only a [dict] has the method. *)
Definition py_get (v : pyval) (k : string) : result pyval :=
  match v with
  | VDict d => Ok (dict_get d k VNone)
  | _ => Raise AttributeError
  end.

(** [getattr(v, name, default)]: the default replaces a missing attribute
    and an attribute whose getter raises [AttributeError]; any other
    exception raised by the getter propagates. *)
Definition py_getattr (v : pyval) (name : string) (default : pyval) : result pyval :=
  match v with
  | VObj attrs =>
      match assoc name attrs with
      | Some (Raise AttributeError) => Ok default
      | Some r => r
      | None => Ok default
      end
  | _ => Ok default
  end.

(** [hasattr(v, name)]: false when the attribute is missing or reading it
    raises [AttributeError]; any other exception propagates. *)
Definition py_hasattr (v : pyval) (name : string) : result bool :=
  match v with
  | VObj attrs =>
      match assoc name attrs with
      | Some (Ok _) => Ok true
      | Some (Raise AttributeError) => Ok false
      | Some (Raise e) => Raise e
      | None => Ok false
      end
  | _ => Ok false
  end.

(** [v.name]. *)
Definition py_attr (v : pyval) (name : string) : result pyval :=
  match v with
  | VObj attrs =>
      match assoc name attrs with
      | Some r => r
      | None => Raise AttributeError
      end
  | _ => Raise AttributeError
  end.

(** [v == s] for a string literal [s]. *)
Definition str_eq (v : pyval) (s : string) : bool :=
  match v with
  | VStr x => String.eqb x s
  | _ => false
  end.

(** [sep.join(parts)]. *)
Fixpoint join (sep : string) (parts : list string) : string :=
  match parts with
  | [] => ""
  | [x] => x
  | x :: rest => x +:+ sep +:+ join sep rest
  end.

Definition newline : string := String (Ascii.ascii_of_nat 10) "".

(** [part in whole] on strings. *)
Definition occurs_in (part whole : string) : Prop :=
  exists before after, whole = before +:+ part +:+ after.

End Py.

(** ** The guardian: [amplifier_session_guardian/__init__.py] *)

Module Guardian.
Import Py.

(** [HookResult] belongs to the host ([amplifier_core.models]); the record
    has the keyword arguments the module passes, [None] standing for an
    argument left to the host's default. *)
Record HookResult := {
  action : string;
  context_injection : option string;
  context_injection_role : option string;
  ephemeral : option bool;
  user_message : option string;
  user_message_level : option string;
}.

(** [HookResult(action="continue")]. *)
Definition continue_result : HookResult :=
  {| action := "continue";
     context_injection := None;
     context_injection_role := None;
     ephemeral := None;
     user_message := None;
     user_message_level := None |}.

(** The float literals [0.60] and [0.80]. *)
Definition float_0_60 : spec_float := S754_finite false 5404319552844595 (-53).
Definition float_0_80 : spec_float := S754_finite false 7205759403792794 (-53).

Record TokenTracker := {
  context_window : pyval;
  soft_threshold : pyval;
  hard_threshold : pyval;
  latest_input_tokens : pyval;
  cumulative_output_tokens : pyval;
  turn_count : Z;
}.

(** [TokenTracker.__init__]. *)
Definition TokenTracker_init (config : list (string * pyval)) : TokenTracker :=
  {| context_window := dict_get config "context_window" (VInt 200000);
     soft_threshold := dict_get config "soft_threshold" (VFloat float_0_60);
     hard_threshold := dict_get config "hard_threshold" (VFloat float_0_80);
     latest_input_tokens := VInt 0;
     cumulative_output_tokens := VInt 0;
     turn_count := 0 |}.

(** The property [TokenTracker.usage_pct]. *)
Definition usage_pct (t : TokenTracker) : result spec_float :=
  do nonpos <- py_le (context_window t) (VInt 0) ;
  if nonpos then Ok (S754_zero false)
  else py_truediv (latest_input_tokens t) (context_window t).

Definition _extract_tokens (usage : pyval) : pyval * pyval :=
  match usage with
  | VNone => (VInt 0, VInt 0)
  | VDict d =>
      (py_or (dict_get d "input_tokens" (VInt 0)) (VInt 0),
       py_or (dict_get d "output_tokens" (VInt 0)) (VInt 0))
  | _ =>
      try_except
        (do i <- py_getattr usage "input_tokens" (VInt 0) ;
         do o <- py_getattr usage "output_tokens" (VInt 0) ;
         Ok (py_or i (VInt 0), py_or o (VInt 0)))
        (VInt 0, VInt 0)
  end.

(** *** Statements that mutate the tracker

    A handler body is a sequence of statements over the tracker, each of
    which may raise; what was assigned before a [raise] stays assigned. *)
Definition stmt (A : Type) : Type := TokenTracker -> TokenTracker * result A.

Definition sret {A} (a : A) : stmt A := fun t => (t, Ok a).

Definition sbind {A B} (m : stmt A) (k : A -> stmt B) : stmt B :=
  fun t =>
    match m t with
    | (t', Ok a) => k a t'
    | (t', Raise e) => (t', Raise e)
    end.

Definition eval {A} (f : TokenTracker -> result A) : stmt A := fun t => (t, f t).

Definition assign (f : TokenTracker -> TokenTracker) : stmt unit :=
  fun t => (f t, Ok tt).

Notation "'run' x <- m ; k" := (sbind m (fun x => k))
  (at level 10, x name, m at level 100, k at level 200).

Definition set_latest_input_tokens (v : pyval) (t : TokenTracker) : TokenTracker :=
  {| context_window := context_window t;
     soft_threshold := soft_threshold t;
     hard_threshold := hard_threshold t;
     latest_input_tokens := v;
     cumulative_output_tokens := cumulative_output_tokens t;
     turn_count := turn_count t |}.

Definition set_cumulative_output_tokens (v : pyval) (t : TokenTracker) : TokenTracker :=
  {| context_window := context_window t;
     soft_threshold := soft_threshold t;
     hard_threshold := hard_threshold t;
     latest_input_tokens := latest_input_tokens t;
     cumulative_output_tokens := v;
     turn_count := turn_count t |}.

Definition set_turn_count (n : Z) (t : TokenTracker) : TokenTracker :=
  {| context_window := context_window t;
     soft_threshold := soft_threshold t;
     hard_threshold := hard_threshold t;
     latest_input_tokens := latest_input_tokens t;
     cumulative_output_tokens := cumulative_output_tokens t;
     turn_count := n |}.

(** The [try] block of [_handle_response].  Its last statement builds the
    arguments of [logger.debug], among them [tracker.usage_pct * 100]. *)
Definition response_body (data : pyval) : stmt unit :=
  run usage <- eval (fun _ => py_get data "usage") ;
  let '(input_tokens, output_tokens) := _extract_tokens usage in
  run positive <- eval (fun _ => py_gt input_tokens (VInt 0)) ;
  run _ <- (if positive then assign (set_latest_input_tokens input_tokens) else sret tt) ;
  run total <- eval (fun t => py_add (cumulative_output_tokens t) output_tokens) ;
  run _ <- assign (set_cumulative_output_tokens total) ;
  run _ <- assign (fun t => set_turn_count (turn_count t + 1) t) ;
  run pct <- eval usage_pct ;
  let _ := float_mul_int pct 100 in
  sret tt.

(** [_handle_response]: the tracker after the call, and the result.  Both
    the normal exit and the [except] clause fall through to the same
    [return]. *)
Definition _handle_response (t : TokenTracker) (data : pyval) : TokenTracker * HookResult :=
  (fst (response_body data t), continue_result).

(** The tracker after one response event, case by case: where the [try]
    block is left decides what has been assigned. *)
Definition response_step (t : TokenTracker) (data : pyval) : TokenTracker :=
  match py_get data "usage" with
  | Raise _ => t
  | Ok usage =>
      let '(input_tokens, output_tokens) := _extract_tokens usage in
      match py_gt input_tokens (VInt 0) with
      | Raise _ => t
      | Ok positive =>
          let t1 := if positive then set_latest_input_tokens input_tokens t else t in
          match py_add (cumulative_output_tokens t1) output_tokens with
          | Raise _ => t1
          | Ok total =>
              set_turn_count (turn_count t1 + 1) (set_cumulative_output_tokens total t1)
          end
      end
  end.

(** The three results [_handle_request] can return from its [try] block. *)
Definition informational_result (pct_int turn : Z) : HookResult :=
  {| action := "inject_context";
     context_injection :=
       Some ("[Session Guardian: " +:+ pretty pct_int +:+ "% context used, turn "
             +:+ pretty turn +:+ "]");
     context_injection_role := Some "system";
     ephemeral := Some true;
     user_message := None;
     user_message_level := None |}.

Definition soft_warning_result (pct_int : Z) : HookResult :=
  {| action := "inject_context";
     context_injection :=
       Some ("[Session Guardian: " +:+ pretty pct_int +:+ "% context — save progress with "
             +:+ "session_state tool now. Continue working but be concise.]");
     context_injection_role := Some "system";
     ephemeral := Some true;
     user_message :=
       Some ("Session Guardian: " +:+ pretty pct_int
             +:+ "% context used — saving progress recommended");
     user_message_level := Some "warning" |}.

Definition hard_warning_result (pct_int : Z) : HookResult :=
  {| action := "inject_context";
     context_injection :=
       Some ("[Session Guardian: " +:+ pretty pct_int +:+ "% context — HANDOFF REQUIRED. "
             +:+ "Save state immediately and tell the user to start a new session.]");
     context_injection_role := Some "system";
     ephemeral := Some true;
     user_message :=
       Some ("Session Guardian: " +:+ pretty pct_int +:+ "% context used — handoff required!");
     user_message_level := Some "error" |}.

(** The [try] block of [_handle_request]. *)
Definition request_body (t : TokenTracker) : result HookResult :=
  do pct <- usage_pct t ;
  do pct_int <- float_to_int (float_mul_int pct 100) ;
  let turn := turn_count t in
  do below_soft <- py_lt (VFloat pct) (soft_threshold t) ;
  if below_soft then Ok (informational_result pct_int turn)
  else
    do below_hard <- py_lt (VFloat pct) (hard_threshold t) ;
    if below_hard then Ok (soft_warning_result pct_int)
    else Ok (hard_warning_result pct_int).

(** [_handle_request]; [data] is not read. *)
Definition _handle_request (t : TokenTracker) (data : pyval) : HookResult :=
  try_except (request_body t) continue_result.

(** The tracker after a sequence of response events, oldest first. *)
Definition responses (t : TokenTracker) (events : list pyval) : TokenTracker :=
  fold_left (fun t data => fst (_handle_response t data)) events t.

(** A response event whose usage is the dict [{"input_tokens": i,
    "output_tokens": o}]. *)
Definition usage_event (i o : pyval) : pyval :=
  VDict [("usage", VDict [("input_tokens", i); ("output_tokens", o)])].

(** The input count of an event, when the handler finds it strictly
    positive. *)
Definition positive_input (data : pyval) : option pyval :=
  match py_get data "usage" with
  | Ok usage =>
      let input_tokens := fst (_extract_tokens usage) in
      match py_gt input_tokens (VInt 0) with
      | Ok true => Some input_tokens
      | _ => None
      end
  | Raise _ => None
  end.

(** The output count of an event whose extracted input count is a number
    and whose extracted output count is an integer. *)
Definition integer_output (data : pyval) : option Z :=
  match py_get data "usage" with
  | Ok usage =>
      let '(input_tokens, output_tokens) := _extract_tokens usage in
      match as_num input_tokens, as_num output_tokens with
      | Some _, Some (NI z) => Some z
      | _, _ => None
      end
  | Raise _ => None
  end.

Fixpoint sum_Z (l : list Z) : Z :=
  match l with
  | [] => 0
  | z :: l' => z + sum_Z l'
  end.

(** A tracker on a window of 100 tokens with thresholds [0.5] and [0.8]. *)
Definition small_window : TokenTracker :=
  TokenTracker_init
    [("context_window", VInt 100);
     ("soft_threshold", VFloat (S754_finite false 4503599627370496 (-53)));
     ("hard_threshold", VFloat float_0_80)].

(** What [latest_input_tokens] can hold: the initial 0, or a value the
    handler found strictly positive. *)
Definition zero_or_positive (v : pyval) : Prop :=
  v = VInt 0 \/ py_gt v (VInt 0) = Ok true.

(** An extracted output count that cannot lower the total: an integer that
    is not negative, or no number at all (the addition then raises). *)
Definition not_lowering (output_tokens : pyval) : Prop :=
  match as_num output_tokens with
  | Some (NI z) => 0 <= z
  | Some (NF _) => False
  | None => True
  end.

(** A context injection as the specification words it: ephemeral, in the
    system role, with the given text and, when there is one, the
    user-facing message and its level. *)
Definition is_injection (r : HookResult) (text : string)
    (message : option (string * string)) : Prop :=
  action r = "inject_context" /\
  context_injection r = Some text /\
  context_injection_role r = Some "system" /\
  ephemeral r = Some true /\
  user_message r = fst <$> message /\
  user_message_level r = snd <$> message.

(** How loud a result is: no user message, a warning, an error. *)
Definition severity (r : HookResult) : Z :=
  match user_message_level r with
  | None => 0
  | Some level => if String.eqb level "warning" then 1 else 2
  end.

End Guardian.

(** ** Exceptions that are not [Exception]s

    [KeyboardInterrupt], [SystemExit] and [GeneratorExit] derive from
    [BaseException] directly, and an [except Exception] clause lets them
    through.  The values of [Py.pyval] raise [Exception]s only.  In the
    guardian, foreign code runs in one place, the attribute reads on a
    usage object; this module reads [_extract_tokens] and
    [_handle_response] once more for a usage object whose getters may
    raise either kind, and keeps apart what the [except] clauses catch
    from what they let through. *)

Module Interrupts.
Import Py Guardian.

Inductive interrupt :=
| KeyboardInterrupt
| SystemExit
| GeneratorExit.

(** What reading an attribute does: the getter returns, raises an
    [Exception], or raises an exception that is none. *)
Inductive getter :=
| Returns (v : pyval)
| Raises (e : exn)
| Interrupts (b : interrupt).

(** A usage object (neither [None] nor a [dict]). *)
Definition usage_object := list (string * getter).

(** How a call ends. *)
Inductive outcome (A : Type) :=
| Done (a : A)
| Failed (e : exn)
| Interrupted (b : interrupt).
Arguments Done {A} a.
Arguments Failed {A} e.
Arguments Interrupted {A} b.

Definition obind {A B} (m : outcome A) (k : A -> outcome B) : outcome B :=
  match m with
  | Done a => k a
  | Failed e => Failed e
  | Interrupted b => Interrupted b
  end.

(** [try: body except Exception: handler]. *)
Definition except_Exception {A} (body handler : outcome A) : outcome A :=
  match body with
  | Failed _ => handler
  | other => other
  end.

(** [getattr(usage, name, default)]. *)
Definition getattr (usage : usage_object) (name : string) (default : pyval)
  : outcome pyval :=
  match assoc name usage with
  | Some (Returns v) => Done v
  | Some (Raises AttributeError) => Done default
  | Some (Raises e) => Failed e
  | Some (Interrupts b) => Interrupted b
  | None => Done default
  end.

(** [_extract_tokens(usage)], the branch of a usage object. *)
Definition _extract_tokens (usage : usage_object) : outcome (pyval * pyval) :=
  except_Exception
    (obind (getattr usage "input_tokens" (VInt 0)) (fun i =>
     obind (getattr usage "output_tokens" (VInt 0)) (fun o =>
     Done (py_or i (VInt 0), py_or o (VInt 0)))))
    (Done (VInt 0, VInt 0)).

(** The statements of the [try] block of [_handle_response] that follow
    the extraction; they work on numbers and raise [Exception]s only. *)
Definition record_tokens (input_tokens output_tokens : pyval) : stmt unit :=
  run positive <- eval (fun _ => py_gt input_tokens (VInt 0)) ;
  run _ <- (if positive then assign (set_latest_input_tokens input_tokens) else sret tt) ;
  run total <- eval (fun t => py_add (cumulative_output_tokens t) output_tokens) ;
  run _ <- assign (set_cumulative_output_tokens total) ;
  run _ <- assign (fun t => set_turn_count (turn_count t + 1) t) ;
  run pct <- eval usage_pct ;
  let _ := float_mul_int pct 100 in
  sret tt.

(** The [try] block of [_handle_response] on event data whose ["usage"] is
    the object. *)
Definition response_body (usage : usage_object) (t : TokenTracker)
  : TokenTracker * outcome unit :=
  match _extract_tokens usage with
  | Done (input_tokens, output_tokens) =>
      let '(t', r) := record_tokens input_tokens output_tokens t in
      (t', match r with
           | Ok _ => Done tt
           | Raise e => Failed e
           end)
  | Failed e => (t, Failed e)
  | Interrupted b => (t, Interrupted b)
  end.

(** [_handle_response]: the normal exit and the [except Exception] clause
    reach the same [return]; anything else leaves the handler. *)
Definition _handle_response (t : TokenTracker) (usage : usage_object)
  : TokenTracker * outcome HookResult :=
  let '(t', r) := response_body usage t in
  (t', match r with
       | Interrupted b => Interrupted b
       | Done _ | Failed _ => Done continue_result
       end).



End Interrupts.

(** ** The session-state tool: [tool-session-state/__init__.py] *)

Module Store.
Import Py.

Definition STATE_DIR : string := ".session-state".
Definition SCHEMA_VERSION : Z := 1.
Definition PRUNE_DAYS : Z := 7.

(** [ToolResult] belongs to the host ([amplifier_core]); the module builds
    it with [output=<text>] or with [error=<text>].  [output_result] is the
    first call.  What the host's class does with a text in its [error]
    field is decided outside this repository, so the second call is a
    parameter of the operations below ([error_result]): it returns the
    host's object or raises the host's exception. *)
Record ToolResult := {
  output : option string;
  error : option string;
}.

Definition output_result (s : string) : ToolResult := {| output := Some s; error := None |}.

(** *** Time

    An aware UTC [datetime] is the instant it denotes, in microseconds
    since the epoch; [st_mtime] is read in the same unit. *)
Definition datetime := Z.

Definition us_per_second : Z := 1000000.
Definition us_per_day : Z := 86400 * us_per_second.

(** [timedelta(days=n)]. *)
Definition timedelta_days (n : Z) : Z := n * us_per_day.

(** [datetime.fromtimestamp(t, tz=timezone.utc)]: a [datetime] has a year
    from 1 to 9999, and a time stamp before 0001-01-01 or after 9999-12-31
    raises. *)
Definition datetime_min : Z := -62135596800 * us_per_second.
Definition datetime_end : Z := 253402300800 * us_per_second.

Definition fromtimestamp (t : Z) : result datetime :=
  if (datetime_min <=? t) && (t <? datetime_end) then Ok t else Raise ValueError.

(** The proleptic Gregorian date of a day number (days since 1970-01-01). *)
Definition civil_from_days (z : Z) : Z * Z * Z :=
  let z := z + 719468 in
  let era := z / 146097 in
  let doe := z - era * 146097 in
  let yoe := (doe - doe / 1460 + doe / 36524 - doe / 146096) / 365 in
  let doy := doe - (365 * yoe + yoe / 4 - yoe / 100) in
  let mp := (5 * doy + 2) / 153 in
  let d := doy - (153 * mp + 2) / 5 + 1 in
  let m := if mp <? 10 then mp + 3 else mp - 9 in
  let y := yoe + era * 400 in
  (if m <=? 2 then y + 1 else y, m, d).

(** Zero-padded decimal of a non-negative number, [width] digits at least. *)
Fixpoint zeros (n : nat) : string :=
  match n with
  | O => ""
  | S n' => "0" +:+ zeros n'
  end.

Definition zero_pad (width : nat) (s : string) : string :=
  zeros (width - String.length s) +:+ s.

Definition digits (width : nat) (n : Z) : string := zero_pad width (pretty n).

(** [now.strftime("%Y-%m-%dT%H-%M-%S")] (years 1000 to 9999). *)
Definition strftime_stamp (now : datetime) : string :=
  let '(y, m, d) := civil_from_days (now / us_per_day) in
  let secs := (now mod us_per_day) / us_per_second in
  digits 4 y +:+ "-" +:+ digits 2 m +:+ "-" +:+ digits 2 d +:+ "T"
  +:+ digits 2 (secs / 3600) +:+ "-" +:+ digits 2 (secs / 60 mod 60)
  +:+ "-" +:+ digits 2 (secs mod 60).

(** [now.isoformat()] of an aware UTC datetime: the fraction is printed
    only when the microsecond field is not zero. *)
Definition isoformat (now : datetime) : string :=
  let '(y, m, d) := civil_from_days (now / us_per_day) in
  let secs := (now mod us_per_day) / us_per_second in
  let us := now mod us_per_second in
  digits 4 y +:+ "-" +:+ digits 2 m +:+ "-" +:+ digits 2 d +:+ "T"
  +:+ digits 2 (secs / 3600) +:+ ":" +:+ digits 2 (secs / 60 mod 60)
  +:+ ":" +:+ digits 2 (secs mod 60)
  +:+ (if us =? 0 then "" else "." +:+ digits 6 us)
  +:+ "+00:00".

(** *** The state directory

    The store owns one directory.  An entry has its text, its modification
    time and whether the file system refuses to unlink it. *)
Record entry := {
  content : string;
  mtime : Z;
  protected : bool;
}.

(** The file system as the tool sees it: [None] when [STATE_DIR] does not
    exist. *)
Abbreviation directory := (gmap string entry).
Abbreviation filesystem := (option (gmap string entry)).

(** [state_dir.mkdir(parents=True, exist_ok=True)]. *)
Definition mkdir (fs : filesystem) : directory :=
  match fs with
  | Some d => d
  | None => ∅
  end.

(** [path.write_text(text)] at time [now]: creates or overwrites. *)
Definition write_text (d : directory) (name text : string) (now : Z) : directory :=
  <[name := {| content := text;
               mtime := now;
               protected := match d !! name with
                            | Some e => protected e
                            | None => false
                            end |}]> d.

Fixpoint ends_with (suffix s : string) : bool :=
  String.eqb s suffix ||
  match s with
  | EmptyString => false
  | String _ s' => ends_with suffix s'
  end.

(** [state_dir.glob("*.json")]. *)
Definition glob_json (d : directory) : list (string * entry) :=
  filter (fun f => ends_with ".json" f.1 = true) (map_to_list d).

(** Paths of one directory compare by name. *)
Definition name_ge (a b : string * entry) : Prop := String.leb b.1 a.1 = true.

#[export] Instance name_ge_dec a b : Decision (name_ge a b).
Proof. unfold name_ge. apply _. Defined.

(** [sorted(paths, reverse=True)]. *)
Definition sorted_reverse (files : list (string * entry)) : list (string * entry) :=
  merge_sort name_ge files.

(** [f.stat().st_size]. *)
Definition st_size (e : entry) : Z := Z.of_nat (String.length (content e)).

(** [str(state_dir / name)]. *)
Definition path_str (name : string) : string := STATE_DIR +:+ "/" +:+ name.

(** [f.unlink()]. *)
Definition unlink (d : directory) (f : string * entry) : result directory :=
  if protected f.2 then Raise OSError else Ok (delete f.1 d).

(** A snapshot file is stale at [cutoff] when its modification time is
    earlier; pruning removes the stale files whose time it can read as a
    [datetime] and which it is allowed to unlink. *)
Definition stale (cutoff : Z) (f : string * entry) : Prop :=
  ends_with ".json" f.1 = true /\ mtime f.2 < cutoff.

Definition prunable (cutoff : Z) (f : string * entry) : Prop :=
  stale cutoff f /\ datetime_min <= mtime f.2 < datetime_end /\ protected f.2 = false.

#[export] Instance stale_dec cutoff f : Decision (stale cutoff f).
Proof. unfold stale. apply _. Defined.

#[export] Instance prunable_dec cutoff f : Decision (prunable cutoff f).
Proof. unfold prunable. apply _. Defined.

(** *** Calendar order

    The pieces of [strftime_stamp] as numbers, to compare file names with
    the instants that named them. *)
Definition date_key (c : Z * Z * Z) : Z := c.1.1 * 10000 + c.1.2 * 100 + c.2.

(** The steps of [civil_from_days] inside one 400-year era: the year of
    the era, the days before that year, and month and day of a day of the
    year (which starts on March 1). *)
Definition year_of_era (doe : Z) : Z :=
  (doe - doe / 1460 + doe / 36524 - doe / 146096) / 365.

Definition days_before_year (yoe : Z) : Z := 365 * yoe + yoe / 4 - yoe / 100.

Definition month_day (doy : Z) : Z * Z :=
  let mp := (5 * doy + 2) / 153 in
  let d := doy - (153 * mp + 2) / 5 + 1 in
  let m := if mp <? 10 then mp + 3 else mp - 9 in
  (m, d).

(** January and February belong to the next calendar year. *)
Definition doy_key (doy : Z) : Z :=
  let '(m, d) := month_day doy in
  (if m <=? 2 then 10000 else 0) + m * 100 + d.

(** One day of a year: month and day in range, and the date after it is
    later. *)
Definition year_day_ok (doy : Z) : bool :=
  let '(m, d) := month_day doy in
  (1 <=? m) && (m <=? 12) && (1 <=? d) && (d <=? 31) &&
  (301 <=? doy_key doy) && (doy_key doy <=? 10229) &&
  ((doy =? 365) || (doy_key doy <? doy_key (doy + 1))).

(** [p] holds of the [n] numbers from [z] on. *)
Fixpoint all_from (p : Z -> bool) (n : nat) (z : Z) : bool :=
  match n with
  | O => true
  | S n' => p z && all_from p n' (z + 1)
  end.

Definition same_comparison (c1 c2 : comparison) : bool :=
  match c1, c2 with
  | Eq, Eq | Lt, Lt | Gt, Gt => true
  | _, _ => false
  end.

(** Two-digit fields have two characters and compare as their numbers. *)
Definition two_digit_ok (a : Z) : bool :=
  (String.length (digits 2 a) =? 2)%nat &&
  all_from (fun b => same_comparison (String.compare (digits 2 a) (digits 2 b)) (a ?= b))
    100 0.

(** A four-digit year is its century followed by its year of the century. *)
Definition four_digit_ok (y : Z) : bool :=
  String.eqb (digits 4 y) (digits 2 (y / 100) +:+ digits 2 (y mod 100)).

(** Lexicographic combination of two comparisons. *)
Definition lexc (c c' : comparison) : comparison :=
  match c with Eq => c' | _ => c end.

Definition time_key (secs : Z) : Z :=
  secs / 3600 * 10000 + secs / 60 mod 60 * 100 + secs mod 60.

(** The digits of the stamp of second [s] since the epoch, as one number. *)
Definition second_key (s : Z) : Z :=
  date_key (civil_from_days (s / 86400)) * 1000000 + time_key (s mod 86400).

Definition field_key (c1 c2 m d h i x : Z) : Z :=
  c1 * 1000000000000 + (c2 * 10000000000 + (m * 100000000 + (d * 1000000
  + (h * 10000 + (i * 100 + x))))).

Definition field_stamp (c1 c2 m d h i x : Z) : string :=
  digits 2 c1 +:+ digits 2 c2 +:+ "-" +:+ digits 2 m +:+ "-" +:+ digits 2 d +:+ "T"
  +:+ digits 2 h +:+ "-" +:+ digits 2 i +:+ "-" +:+ digits 2 x +:+ ".json".

(** Instants from 1000-01-01 to 9999-12-31, where [%Y] prints four digits. *)
Definition four_digit_year (t : datetime) : Prop :=
  -354285 * us_per_day <= t < 2932897 * us_per_day.

(** Every snapshot of the store was named by a save made at [now] or
    before. *)
Definition named_before (now : datetime) (fs : filesystem) : Prop :=
  forall name e, mkdir fs !! name = Some e -> ends_with ".json" name = true ->
    exists t, four_digit_year t /\ t <= now /\ name = strftime_stamp t +:+ ".json".

(** *** Operations

    [json.dumps(_, indent=2)], [json.loads] and the text of an exception
    ([str(exc)]) and of a value ([str(v)]) come from the Python library;
    the operations are written over them. *)
Section Operations.

Variable json_dumps : pyval -> result string.
Variable json_loads : string -> result pyval.
Variable exc_text : exn -> string.
Variable py_str : pyval -> string.

(** [ToolResult(error=s)], as the host answers it. *)
Variable error_result : string -> result ToolResult.

(** [SessionStateTool._get_session_id]. *)
Definition _get_session_id (coordinator : pyval) : pyval :=
  try_except
    (do has_config <- py_hasattr coordinator "config" ;
     if has_config then
       do cfg <- py_attr coordinator "config" ;
       match cfg with
       | VDict d => Ok (dict_get d "session_id" VNone)
       | _ => py_getattr cfg "session_id" VNone
       end
     else Ok VNone)
    VNone.

(** One iteration of the loop of [_prune_old_states]: the [try] block
    reads the modification time as a [datetime], compares and unlinks; when
    the conversion or [unlink] raises, the [except] clause passes and the
    file stays. *)
Definition prune_step (cutoff : Z) (acc : directory * Z) (f : string * entry)
  : directory * Z :=
  let '(d, pruned) := acc in
  try_except
    (do mtime <- fromtimestamp (mtime f.2) ;
     if mtime <? cutoff then
       do d' <- unlink d f ;
       Ok (d', pruned + 1)
     else Ok (d, pruned))
    (d, pruned).

(** [SessionStateTool._prune_old_states]: the directory afterwards and the
    count returned. *)
Definition _prune_old_states (d : directory) (now : datetime) : directory * Z :=
  let cutoff := now - timedelta_days PRUNE_DAYS in
  fold_left (prune_step cutoff) (glob_json d) (d, 0).

Definition required_fields : list string := ["summary"; "accomplished"; "remaining"].

(** [[f for f in (...) if not input.get(f)]]. *)
Definition missing_fields (input : list (string * pyval)) : list string :=
  filter (fun f => truthy (dict_get input f VNone) = false) required_fields.

(** [if input.get(k): state[k] = input[k]]. *)
Definition add_optional (input : list (string * pyval)) (k : string)
    (state : list (string * pyval)) : result (list (string * pyval)) :=
  if truthy (dict_get input k VNone) then
    do v <- dict_item input k ;
    Ok (state ++ [(k, v)])%list
  else Ok state.

(** The state document [_save_state] builds. *)
Definition build_state (input : list (string * pyval)) (coordinator : pyval)
    (now : datetime) : result pyval :=
  do summary <- dict_item input "summary" ;
  do accomplished <- dict_item input "accomplished" ;
  do remaining <- dict_item input "remaining" ;
  let state :=
    [("version", VInt SCHEMA_VERSION);
     ("timestamp", VStr (isoformat now));
     ("summary", summary);
     ("accomplished", accomplished);
     ("remaining", remaining)] in
  do state <- add_optional input "decisions" state ;
  do state <- add_optional input "context" state ;
  let session_id := _get_session_id coordinator in
  Ok (VDict (if truthy session_id
             then (state ++ [("session_id", session_id)])%list
             else state)).

Definition pruned_suffix (pruned : Z) : string :=
  if pruned =? 0 then ""
  else " (pruned " +:+ pretty pruned +:+ " old file"
       +:+ (if pruned =? 1 then "" else "s") +:+ ")".

(** [SessionStateTool._save_state] at time [now]: the file system
    afterwards, and the result or the exception that leaves the method
    (the host's, when it refuses the validation error). *)
Definition _save_state (coordinator : pyval) (input : list (string * pyval))
    (now : datetime) (fs : filesystem) : filesystem * result ToolResult :=
  let missing := missing_fields input in
  match missing with
  | _ :: _ => (fs, error_result ("save_state requires: " +:+ join ", " missing))
  | [] =>
      let state_dir := mkdir fs in
      let filename := strftime_stamp now +:+ ".json" in
      match (do state <- build_state input coordinator now ; json_dumps state) with
      | Raise e => (Some state_dir, Raise e)
      | Ok text =>
          let written := write_text state_dir filename (text +:+ newline) now in
          let '(after, pruned) := _prune_old_states written now in
          (Some after,
           Ok (output_result ("State saved to " +:+ path_str filename
                              +:+ pruned_suffix pruned)))
      end
  end.

(** [SessionStateTool._load_state]: the [except] clause takes
    [JSONDecodeError] and [OSError] only. *)
Definition _load_state (fs : filesystem) : result ToolResult :=
  match fs with
  | None =>
      Ok (output_result
            "No session state directory found. This appears to be a fresh session.")
  | Some d =>
      match sorted_reverse (glob_json d) with
      | [] =>
          Ok (output_result "No state files found. This appears to be a fresh session.")
      | latest :: _ =>
          match json_loads (content latest.2) with
          | Raise JSONDecodeError =>
              error_result ("Failed to read " +:+ path_str latest.1 +:+ ": "
                            +:+ exc_text JSONDecodeError)
          | Raise OSError =>
              error_result ("Failed to read " +:+ path_str latest.1 +:+ ": "
                            +:+ exc_text OSError)
          | Raise e => Raise e
          | Ok parsed =>
              do text <- json_dumps parsed ;
              Ok (output_result text)
          end
      end
  end.

(** [SessionStateTool._list_states]. *)
Definition _list_states (fs : filesystem) : result ToolResult :=
  match fs with
  | None => Ok (output_result "No session state directory found.")
  | Some d =>
      let files := sorted_reverse (glob_json d) in
      match files with
      | [] => Ok (output_result "No state files found.")
      | _ =>
          let entries :=
            map (fun f => f.1 +:+ " (" +:+ pretty (st_size f.2) +:+ " bytes)") files in
          Ok (output_result ("Found " +:+ pretty (Z.of_nat (length files))
                             +:+ " state file(s):" +:+ newline
                             +:+ join newline entries))
      end
  end.

(** [SessionStateTool.execute]: the dispatch inside the [try], then the
    [except Exception] clause, whose own [ToolResult(error=...)] call is
    not guarded: what the host raises there leaves [execute]. *)
Definition execute (coordinator : pyval) (input : list (string * pyval))
    (now : datetime) (fs : filesystem) : filesystem * result ToolResult :=
  let operation := dict_get input "operation" VNone in
  let '(fs', r) :=
    if str_eq operation "save_state" then _save_state coordinator input now fs
    else if str_eq operation "load_state" then (fs, _load_state fs)
    else if str_eq operation "list_states" then (fs, _list_states fs)
    else (fs, error_result ("Unknown operation: " +:+ py_str operation
                            +:+ ". Use save_state, load_state, or list_states.")) in
  (fs', match r with
        | Ok res => Ok res
        | Raise e =>
            error_result ("session_state " +:+ py_str operation +:+ " failed: "
                          +:+ exc_text e)
        end).

End Operations.

(** *** The input schema *)

Definition string_property (description : string) : pyval :=
  VDict [("type", VStr "string"); ("description", VStr description)].

Definition string_array (description : string) : pyval :=
  VDict [("type", VStr "array");
         ("items", VDict [("type", VStr "string")]);
         ("description", VStr description)].

Definition INPUT_SCHEMA : pyval :=
  VDict
    [("type", VStr "object");
     ("properties",
      VDict
        [("operation",
          VDict [("type", VStr "string");
                 ("enum", VList [VStr "save_state"; VStr "load_state"; VStr "list_states"]);
                 ("description", VStr "Operation to perform.")]);
         ("summary",
          string_property
            "Brief summary of what was accomplished this session (save_state).");
         ("accomplished", string_array "List of completed items (save_state).");
         ("remaining", string_array "List of items still to do (save_state).");
         ("decisions", string_array "Key decisions made this session (save_state, optional).");
         ("context",
          VDict [("type", VStr "object");
                 ("properties",
                  VDict [("branch", VDict [("type", VStr "string")]);
                         ("files_changed",
                          VDict [("type", VStr "array");
                                 ("items", VDict [("type", VStr "string")])]);
                         ("working_directory", VDict [("type", VStr "string")])]);
                 ("description", VStr "Additional context (save_state, optional).")])]);
     ("required", VList [VStr "operation"])].

(** [schema["properties"][field]["enum"]], empty when a step is missing. *)
Definition schema_enum (schema : pyval) (field : string) : list pyval :=
  match schema with
  | VDict top =>
      match dict_get top "properties" VNone with
      | VDict properties =>
          match dict_get properties field VNone with
          | VDict description =>
              match dict_get description "enum" VNone with
              | VList values => values
              | _ => []
              end
          | _ => []
          end
      | _ => []
      end
  | _ => []
  end.

(** *** A serializer for the examples

    The layout of [json.dumps(_, indent=2)] on [None], booleans, integers,
    strings of printable ASCII, lists and dicts; the examples instantiate
    the JSON library with it.  Its decoder works by table: it knows the
    documents it is given and recognises the text of each, with or without
    a final newline. *)
Definition dquote : Ascii.ascii := Ascii.ascii_of_nat 34.
Definition backslash : Ascii.ascii := Ascii.ascii_of_nat 92.

Fixpoint escape (s : string) : string :=
  match s with
  | EmptyString => EmptyString
  | String c s' =>
      if Ascii.eqb c dquote then String backslash (String dquote (escape s'))
      else if Ascii.eqb c backslash then String backslash (String backslash (escape s'))
      else String c (escape s')
  end.

Definition quoted (s : string) : string :=
  String dquote (escape s +:+ String dquote EmptyString).

Fixpoint spaces (n : nat) : string :=
  match n with
  | O => EmptyString
  | S n' => " " +:+ spaces n'
  end.

Definition block (opening closing : string) (depth : nat) (items : list string) : string :=
  opening +:+ newline
  +:+ join ("," +:+ newline) (map (fun i => spaces (2 * S depth) +:+ i) items)
  +:+ newline +:+ spaces (2 * depth) +:+ closing.

Fixpoint sample_dumps_at (depth : nat) (v : pyval) {struct v} : result string :=
  match v with
  | VNone => Ok "null"
  | VBool b => Ok (if b then "true" else "false")
  | VInt z => Ok (pretty z)
  | VStr s => Ok (quoted s)
  | VList [] => Ok "[]"
  | VList l =>
      do items <- (fix each (l : list pyval) : result (list string) :=
                     match l with
                     | [] => Ok []
                     | x :: l' =>
                         do sx <- sample_dumps_at (S depth) x ;
                         do rest <- each l' ;
                         Ok (sx :: rest)
                     end) l ;
      Ok (block "[" "]" depth items)
  | VDict [] => Ok "{}"
  | VDict d =>
      do items <- (fix each (d : list (string * pyval)) : result (list string) :=
                     match d with
                     | [] => Ok []
                     | (k, x) :: d' =>
                         do sx <- sample_dumps_at (S depth) x ;
                         do rest <- each d' ;
                         Ok ((quoted k +:+ ": " +:+ sx) :: rest)
                     end) d ;
      Ok (block "{" "}" depth items)
  | VFloat _ | VObj _ => Raise TypeError
  end.

Definition sample_dumps (v : pyval) : result string := sample_dumps_at 0 v.

Fixpoint sample_loads (known : list pyval) (text : string) : result pyval :=
  match known with
  | [] => Raise JSONDecodeError
  | doc :: known' =>
      match sample_dumps doc with
      | Ok t =>
          if String.eqb t text || String.eqb (t +:+ newline) text then Ok doc
          else sample_loads known' text
      | Raise _ => sample_loads known' text
      end
  end.

Definition sample_exc_text (e : exn) : string :=
  match e with
  | TypeError => "TypeError"
  | AttributeError => "AttributeError"
  | ValueError => "ValueError"
  | OverflowError => "OverflowError"
  | ZeroDivisionError => "ZeroDivisionError"
  | KeyError => "KeyError"
  | OSError => "OSError"
  | JSONDecodeError => "JSONDecodeError"
  | ValidationError => "ValidationError"
  end.

Definition sample_str (v : pyval) : string :=
  match v with
  | VStr s => s
  | VNone => "None"
  | _ => "<value>"
  end.

(** Two hosts for the examples: one whose [error] field takes a text, and
    one that refuses a text there, as a class does whose [error] field is
    declared a mapping. *)
Definition text_error (s : string) : result ToolResult :=
  Ok {| output := None; error := Some s |}.

Definition refused_error (s : string) : result ToolResult := Raise ValidationError.

(** 2026-11-04 01:50:00.123456 UTC. *)
Definition sample_now : datetime := 1793757000123456.

Definition sample_coordinator : pyval :=
  VObj [("config", Ok (VDict [("session_id", VStr "session-42")]))].

Definition sample_input : list (string * pyval) :=
  [("operation", VStr "save_state");
   ("summary", VStr "Embedded the tracker");
   ("accomplished", VList [VStr "tracker"; VStr "bands"]);
   ("remaining", VList [VStr "store"]);
   ("decisions", VList [])].

(** A state directory with two stale snapshots (one of which cannot be
    unlinked), a recent one and a stale file that is no snapshot. *)
Definition sample_directory : gmap string entry :=
  list_to_map
    [("2026-10-01T09-00-00.json",
      {| content := "{}"; mtime := sample_now - timedelta_days 34; protected := false |});
     ("2026-10-02T09-00-00.json",
      {| content := "{}"; mtime := sample_now - timedelta_days 33; protected := true |});
     ("2026-11-01T09-00-00.json",
      {| content := "{}"; mtime := sample_now - timedelta_days 3; protected := false |});
     ("notes.txt",
      {| content := "keep"; mtime := sample_now - timedelta_days 90; protected := false |})].

(** A save input whose summary is an object, which JSON cannot hold. *)
Definition unserialisable_input : list (string * pyval) :=
  [("operation", VStr "save_state");
   ("summary", VObj []);
   ("accomplished", VList [VStr "tracker"]);
   ("remaining", VList [VStr "store"])].

Definition sample_state : pyval :=
  VDict [("version", VInt 1);
         ("timestamp", VStr "2026-11-04T01:50:00.123456+00:00");
         ("summary", VStr "Embedded the tracker");
         ("accomplished", VList [VStr "tracker"; VStr "bands"]);
         ("remaining", VList [VStr "store"]);
         ("session_id", VStr "session-42")].

End Store.

(** * Properties *)

(** ** Facts about Python numbers *)

Module PyFacts.
Import Py.

Lemma xcompare_antisym (a b : xval) : xcompare b a = CompOpp (xcompare a b).
Proof.
  destruct a, b; simpl; try reflexivity.
  symmetry. apply Qcompare_antisym.
Qed.

Lemma xcompare_le_trans (a b c : xval) :
  xcompare a b <> Gt -> xcompare b c <> Gt -> xcompare a c <> Gt.
Proof.
  destruct a, b, c; simpl; try congruence.
  rewrite <- !Qle_alt. apply Qle_trans.
Qed.

Lemma xcompare_lt_le_trans (a b c : xval) :
  xcompare a b = Lt -> xcompare b c <> Gt -> xcompare a c = Lt.
Proof.
  destruct a, b, c; simpl; try congruence.
  rewrite <- !Qlt_alt, <- Qle_alt. apply Qlt_le_trans.
Qed.

Lemma xcompare_eq_lt_trans (a b c : xval) :
  xcompare a b = Eq -> xcompare b c = Lt -> xcompare a c = Lt.
Proof.
  destruct a, b, c; simpl; try congruence.
  rewrite <- Qeq_alt, <- !Qlt_alt. intros ->. trivial.
Qed.

(** What a successful comparison says about its operands. *)
Lemma py_compare_Ok (a b : pyval) (c : option comparison) :
  py_compare a b = Ok c ->
  exists x y, as_num a = Some x /\ as_num b = Some y /\ c = num_compare x y.
Proof.
  unfold py_compare. destruct (as_num a) as [x|], (as_num b) as [y|]; try discriminate.
  intros [= <-]. eauto.
Qed.

Lemma py_lt_true (a b : pyval) :
  py_lt a b = Ok true <->
  exists x y, val_of a = Some x /\ val_of b = Some y /\ xcompare x y = Lt.
Proof.
  unfold py_lt, py_compare, val_of, num_compare.
  destruct (as_num a) as [na|], (as_num b) as [nb|]; simpl;
    try (split; [discriminate | intros (x & y & ? & ? & ?); discriminate]).
  destruct (num_val na) as [x|], (num_val nb) as [y|]; simpl;
    try (split; [discriminate | intros (x' & y' & ? & ? & ?); discriminate]).
  split.
  - intros H. exists x, y. repeat split. destruct (xcompare x y); congruence.
  - intros (x' & y' & [= <-] & [= <-] & ->). reflexivity.
Qed.

Lemma py_le_true (a b : pyval) :
  py_le a b = Ok true <->
  exists x y, val_of a = Some x /\ val_of b = Some y /\ xcompare x y <> Gt.
Proof.
  unfold py_le, py_compare, val_of, num_compare.
  destruct (as_num a) as [na|], (as_num b) as [nb|]; simpl;
    try (split; [discriminate | intros (x & y & ? & ? & ?); discriminate]).
  destruct (num_val na) as [x|], (num_val nb) as [y|]; simpl;
    try (split; [discriminate | intros (x' & y' & ? & ? & ?); discriminate]).
  split.
  - intros H. exists x, y. repeat split. destruct (xcompare x y); congruence.
  - intros (x' & y' & [= <-] & [= <-] & H). destruct (xcompare x y); congruence.
Qed.

Lemma py_ge_true (a b : pyval) :
  py_ge a b = Ok true <->
  exists x y, val_of a = Some x /\ val_of b = Some y /\ xcompare x y <> Lt.
Proof.
  unfold py_ge, py_compare, val_of, num_compare.
  destruct (as_num a) as [na|], (as_num b) as [nb|]; simpl;
    try (split; [discriminate | intros (x & y & ? & ? & ?); discriminate]).
  destruct (num_val na) as [x|], (num_val nb) as [y|]; simpl;
    try (split; [discriminate | intros (x' & y' & ? & ? & ?); discriminate]).
  split.
  - intros H. exists x, y. repeat split. destruct (xcompare x y); congruence.
  - intros (x' & y' & [= <-] & [= <-] & H). destruct (xcompare x y); congruence.
Qed.

Lemma py_gt_true (a b : pyval) :
  py_gt a b = Ok true <->
  exists x y, val_of a = Some x /\ val_of b = Some y /\ xcompare x y = Gt.
Proof.
  unfold py_gt, py_compare, val_of, num_compare.
  destruct (as_num a) as [na|], (as_num b) as [nb|]; simpl;
    try (split; [discriminate | intros (x & y & ? & ? & ?); discriminate]).
  destruct (num_val na) as [x|], (num_val nb) as [y|]; simpl;
    try (split; [discriminate | intros (x' & y' & ? & ? & ?); discriminate]).
  split.
  - intros H. exists x, y. repeat split. destruct (xcompare x y); congruence.
  - intros (x' & y' & [= <-] & [= <-] & ->). reflexivity.
Qed.

Lemma py_eq_num_true (a b : pyval) :
  py_eq_num a b = Ok true <->
  exists x y, val_of a = Some x /\ val_of b = Some y /\ xcompare x y = Eq.
Proof.
  unfold py_eq_num, py_compare, val_of, num_compare.
  destruct (as_num a) as [na|], (as_num b) as [nb|]; simpl;
    try (split; [discriminate | intros (x & y & ? & ? & ?); discriminate]).
  destruct (num_val na) as [x|], (num_val nb) as [y|]; simpl;
    try (split; [discriminate | intros (x' & y' & ? & ? & ?); discriminate]).
  split.
  - intros H. exists x, y. repeat split. destruct (xcompare x y); congruence.
  - intros (x' & y' & [= <-] & [= <-] & ->). reflexivity.
Qed.

(** [a < b] is false as soon as both are placed and [a] is not below [b]. *)
Lemma py_lt_false (a b : pyval) (x y : xval) :
  val_of a = Some x -> val_of b = Some y -> xcompare x y <> Lt ->
  py_lt a b = Ok false.
Proof.
  unfold py_lt, py_compare, val_of, num_compare.
  destruct (as_num a) as [na|], (as_num b) as [nb|]; simpl; try discriminate.
  intros -> -> H. simpl. destruct (xcompare x y); congruence.
Qed.

(** *** Signs of float results *)

Lemma binary_round_aux_not_negative (m e : Z) (l : location) :
  not_negative (binary_round_aux prec emax false m e l) = true.
Proof.
  unfold binary_round_aux.
  destruct (shr_fexp prec emax m e l) as [mrs' e'].
  destruct (shr_fexp prec emax _ e' loc_Exact) as [mrs'' e''].
  destruct (shr_m mrs''); [reflexivity | | reflexivity].
  destruct (Z.leb _ _); reflexivity.
Qed.

Lemma float_of_Z_not_negative (z : Z) :
  0 <= z -> not_negative (float_of_Z z) = true.
Proof.
  intros Hz. unfold float_of_Z, binary_normalize.
  destruct z as [|p|p]; [reflexivity | | lia].
  unfold binary_round.
  destruct (shl_align _ _ _) as [mz ez].
  apply binary_round_aux_not_negative.
Qed.

Lemma int_truediv_not_negative (a b : Z) (f : spec_float) :
  0 <= a -> 0 <= b -> int_truediv a b = Ok f -> not_negative f = true.
Proof.
  intros Ha Hb. unfold int_truediv.
  destruct (b =? 0); [discriminate |].
  replace (a <? 0) with false by (symmetry; apply Z.ltb_ge; lia).
  replace (b <? 0) with false by (symmetry; apply Z.ltb_ge; lia).
  simpl xorb.
  destruct (a =? 0); [by intros [= <-] |].
  destruct (SFdiv_core_binary _ _ _ _ _ _) as [[mz ez] lz].
  pose proof (binary_round_aux_not_negative mz ez lz) as H.
  destruct (binary_round_aux prec emax false mz ez lz); try discriminate;
    intros [= <-]; exact H.
Qed.

Lemma SFdiv_not_negative (x y : spec_float) :
  not_negative x = true -> not_negative y = true -> float_is_zero y = false ->
  not_negative (SFdiv prec emax x y) = true.
Proof.
  destruct x as [sx|[|]| |[|] mx ex], y as [sy|[|]| |[|] my ey];
    simpl; try discriminate; try reflexivity.
  intros _ _ _.
  destruct (SFdiv_core_binary _ _ _ _ _ _) as [[mz ez] lz].
  apply binary_round_aux_not_negative.
Qed.

Lemma SFmul_not_negative (x y : spec_float) :
  not_negative x = true -> not_negative y = true ->
  not_negative (SFmul prec emax x y) = true.
Proof.
  destruct x as [[|]|[|]| |[|] mx ex], y as [[|]|[|]| |[|] my ey];
    simpl; try discriminate; try reflexivity.
  intros _ _. apply binary_round_aux_not_negative.
Qed.

Lemma num_to_float_not_negative (a : num) (f : spec_float) :
  num_not_negative a -> num_to_float a = Ok f -> not_negative f = true.
Proof.
  destruct a as [z|g]; simpl.
  - intros Hz. unfold int_to_float.
    pose proof (float_of_Z_not_negative z Hz) as H.
    destruct (float_of_Z z); try discriminate; intros [= <-]; exact H.
  - by intros H [= <-].
Qed.

Lemma py_truediv_not_negative (a b : pyval) (na nb : num) (f : spec_float) :
  as_num a = Some na -> as_num b = Some nb ->
  num_not_negative na -> num_not_negative nb ->
  py_truediv a b = Ok f -> not_negative f = true.
Proof.
  unfold py_truediv. intros -> -> Ha Hb.
  assert (Hgen : (do fx <- num_to_float na ;
                  do fy <- num_to_float nb ;
                  if float_is_zero fy then Raise ZeroDivisionError
                  else Ok (SFdiv prec emax fx fy)) = Ok f ->
                 not_negative f = true).
  { destruct (num_to_float na) as [fx|] eqn:Hfx; [|discriminate].
    destruct (num_to_float nb) as [fy|] eqn:Hfy; [|discriminate].
    simpl. destruct (float_is_zero fy) eqn:Hz; [discriminate |].
    intros [= <-]. apply SFdiv_not_negative.
    - exact (num_to_float_not_negative na fx Ha Hfx).
    - exact (num_to_float_not_negative nb fy Hb Hfy).
    - exact Hz. }
  destruct na as [x|x], nb as [y|y]; try exact Hgen.
  by apply int_truediv_not_negative.
Qed.

Lemma Qcompare_int_zero (z : Z) : Qcompare (z # 1) (0 # 1) = (z ?= 0).
Proof. unfold Qcompare. cbn [Qnum Qden]. by rewrite Z.mul_1_r. Qed.

Lemma shiftl_sign (v : Z) (p : positive) : (Z.shiftl v (Z.pos p) ?= 0) = (v ?= 0).
Proof.
  pose proof (Z.shiftl_nonneg v (Z.pos p)) as Hnn.
  pose proof (Z.shiftl_eq_0_iff v (Z.pos p) ltac:(lia)) as Hz.
  destruct (Z.compare_spec v 0), (Z.compare_spec (Z.shiftl v (Z.pos p)) 0);
    try reflexivity; lia.
Qed.

(** The sign of a finite float's value is the sign bit. *)
Lemma finite_val_sign (s : bool) (m : positive) (e : Z) :
  exists q, float_val (S754_finite s m e) = Some (Fin q) /\
            Qcompare q (0 # 1) = if s then Lt else Gt.
Proof.
  simpl. eexists. split; [reflexivity |].
  destruct e as [|p|p].
  - rewrite Qcompare_int_zero. by destruct s.
  - rewrite Qcompare_int_zero, shiftl_sign. by destruct s.
  - unfold Qcompare. cbn [Qnum Qden]. rewrite Z.mul_1_r. by destruct s.
Qed.

(** A placed number that is not below zero is not negative. *)
Lemma not_below_zero_not_negative (n : num) :
  (forall x, num_val n = Some x -> xcompare x (Fin (0 # 1)) <> Lt) ->
  num_not_negative n.
Proof.
  destruct n as [z|f]; cbn [num_val num_not_negative].
  - intros H. specialize (H _ eq_refl). cbn [xcompare] in H.
    rewrite Qcompare_int_zero in H.
    destruct (Z.compare_spec z 0); try lia. congruence.
  - destruct f as [s|[|]| |[|] m e]; try reflexivity; intros H.
    + by destruct (H _ eq_refl).
    + destruct (finite_val_sign true m e) as (q & Hq & Hc).
      by destruct (H _ Hq).
Qed.

Lemma not_negative_not_below_zero (f : spec_float) :
  not_negative f = true -> py_lt (VFloat f) (VInt 0) = Ok false.
Proof.
  destruct f as [s|[|]| |[|] m e]; try discriminate; try reflexivity.
  intros _. destruct (finite_val_sign false m e) as (q & Hq & Hc).
  eapply py_lt_false.
  - unfold val_of. cbn [as_num num_val]. exact Hq.
  - reflexivity.
  - cbn [xcompare]. congruence.
Qed.

Lemma py_gt_int_zero (z : Z) : py_gt (VInt z) (VInt 0) = Ok (0 <? z).
Proof.
  unfold py_gt, py_compare, num_compare. cbn [as_num num_val bind xcompare].
  rewrite Qcompare_int_zero. unfold Z.ltb. rewrite (Z.compare_antisym z 0).
  by destruct (z ?= 0).
Qed.

Lemma float_to_int_is_floor (f : spec_float) :
  not_negative f = true -> float_to_int f = float_floor f.
Proof.
  destruct f as [s|s| |[|] m e]; simpl; try discriminate; reflexivity.
Qed.

End PyFacts.

(** ** The guardian *)

Module GuardianFacts.
Import Py PyFacts Guardian.

Lemma handle_response_step (t : TokenTracker) (data : pyval) :
  fst (_handle_response t data) = response_step t data.
Proof.
  unfold _handle_response, response_step, response_body, sbind, eval, assign, sret.
  simpl.
  destruct (py_get data "usage") as [usage|]; [|reflexivity].
  destruct (_extract_tokens usage) as [i o].
  destruct (py_gt i (VInt 0)) as [[|]|]; simpl; try reflexivity.
  - destruct (py_add _ o); simpl; [|reflexivity].
    destruct (usage_pct _); reflexivity.
  - destruct (py_add _ o); simpl; [|reflexivity].
    destruct (usage_pct _); reflexivity.
Qed.

Lemma responses_app (t : TokenTracker) (xs ys : list pyval) :
  responses t (xs ++ ys)%list = responses (responses t xs) ys.
Proof. unfold responses. apply fold_left_app. Qed.

Lemma responses_cons (t : TokenTracker) (x : pyval) (xs : list pyval) :
  responses t (x :: xs) = responses (response_step t x) xs.
Proof. unfold responses. cbn [fold_left]. by rewrite handle_response_step. Qed.

Lemma latest_after_step (t : TokenTracker) (data : pyval) :
  latest_input_tokens (response_step t data) =
  match positive_input data with
  | Some v => v
  | None => latest_input_tokens t
  end.
Proof.
  unfold response_step, positive_input.
  destruct (py_get data "usage") as [usage|]; [|reflexivity].
  destruct (_extract_tokens usage) as [i o]. simpl.
  destruct (py_gt i (VInt 0)) as [[|]|]; try reflexivity;
    destruct (py_add _ o); reflexivity.
Qed.

(** C2.  After any sequence of response events, [latest_input_tokens] is
    the input count of the most recent event whose extracted input count
    was strictly positive, and the initial value when there is none; an
    event with a zero, absent or otherwise non-positive input count leaves
    it alone.  Inputs 1000, 0, 3000 end with 3000, not 4000. *)
Theorem latest_is_most_recent_positive :
  (forall (t : TokenTracker) (events : list pyval),
     (Forall (fun d => positive_input d = None) events /\
      latest_input_tokens (responses t events) = latest_input_tokens t)
     \/
     (exists before d after v,
        events = (before ++ d :: after)%list /\
        positive_input d = Some v /\
        Forall (fun d' => positive_input d' = None) after /\
        latest_input_tokens (responses t events) = v))
  /\
  (let t := responses (TokenTracker_init [])
              [usage_event (VInt 1000) (VInt 0);
               usage_event (VInt 0) (VInt 0);
               usage_event (VInt 3000) (VInt 0)] in
   latest_input_tokens t = VInt 3000 /\ latest_input_tokens t <> VInt 4000)
  /\
  (positive_input (usage_event (VInt 0) (VInt 5)) = None /\
   positive_input (usage_event (VInt (-3)) (VInt 5)) = None /\
   positive_input (usage_event VNone (VInt 5)) = None /\
   positive_input (VDict [("usage", VDict [("output_tokens", VInt 5)])]) = None /\
   positive_input (VDict [("usage", VNone)]) = None /\
   positive_input (VDict []) = None).
Proof.
  split; [|by vm_compute].
  intros t events. induction events as [|d events IH] using rev_ind.
  - left. split; [constructor | reflexivity].
  - rewrite responses_app, responses_cons. cbn [responses fold_left].
    rewrite latest_after_step.
    destruct (positive_input d) as [v|] eqn:Hd.
    + right. exists events, d, [], v. repeat split; [done | constructor].
    + destruct IH as [[Hall Hl] | (before & d0 & after & v & -> & Hd0 & Hall & Hl)].
      * left. split; [|done].
        apply Forall_app. split; [done | by constructor].
      * right. exists before, d0, (after ++ [d])%list, v.
        rewrite <- app_assoc. repeat split; try done.
        apply Forall_app. split; [done | by constructor].
Qed.

(** One event that the handler processes to the end, on an integer total. *)
Lemma step_integer_output (t : TokenTracker) (data : pyval) (c z : Z) :
  cumulative_output_tokens t = VInt c ->
  integer_output data = Some z ->
  cumulative_output_tokens (response_step t data) = VInt (c + z) /\
  turn_count (response_step t data) = turn_count t + 1.
Proof.
  unfold integer_output, response_step. intros Hc.
  destruct (py_get data "usage") as [usage|]; [|discriminate].
  destruct (_extract_tokens usage) as [i o].
  unfold py_gt, py_compare.
  destruct (as_num i) as [ni|]; [|discriminate].
  destruct (as_num o) as [[zo|]|] eqn:Ho; try discriminate.
  intros [= ->]. simpl.
  destruct (match num_compare ni (NI 0) with Some Gt => true | _ => false end);
    unfold py_add; simpl; rewrite Hc, Ho; simpl; done.
Qed.

Lemma responses_integer_outputs (events : list pyval) :
  forall (t : TokenTracker) (c : Z),
    cumulative_output_tokens t = VInt c ->
    Forall (fun d => is_Some (integer_output d)) events ->
    cumulative_output_tokens (responses t events)
      = VInt (c + sum_Z (omap integer_output events)) /\
    turn_count (responses t events) = turn_count t + Z.of_nat (length events).
Proof.
  induction events as [|d events IH]; intros t c Hc Hall.
  - simpl. split; [by rewrite Z.add_0_r | lia].
  - inversion Hall as [|? ? [z Hz] Hall']; subst.
    rewrite responses_cons.
    destruct (step_integer_output t d c z Hc Hz) as [Hc' Ht'].
    destruct (IH _ _ Hc' Hall') as [-> ->].
    cbn [omap list_omap]. rewrite Hz. cbn [sum_Z length].
    rewrite Ht'. split; [f_equal; lia | lia].
Qed.

(** C8, as the code has it.  After any sequence of response events each of
    whose extracted input count is a number and extracted output count an
    integer, [cumulative_output_tokens] is the sum of the extracted output
    counts and [turn_count] the number of events; outputs 50, 75, 0 give
    125 after 3 turns. *)
Theorem cumulative_output_is_sum (config : list (string * pyval)) (events : list pyval) :
  Forall (fun d => is_Some (integer_output d)) events ->
  let t := responses (TokenTracker_init config) events in
  cumulative_output_tokens t = VInt (sum_Z (omap integer_output events)) /\
  turn_count t = Z.of_nat (length events).
Proof.
  intros Hall.
  exact (responses_integer_outputs events (TokenTracker_init config) 0 eq_refl Hall).
Qed.

Lemma cumulative_output_is_sum_witness :
  Forall (fun d => is_Some (integer_output d))
    [usage_event (VInt 1000) (VInt 50);
     usage_event (VInt 1200) (VInt 75);
     usage_event (VInt 1400) (VInt 0)] /\
  let t := responses (TokenTracker_init [])
             [usage_event (VInt 1000) (VInt 50);
              usage_event (VInt 1200) (VInt 75);
              usage_event (VInt 1400) (VInt 0)] in
  cumulative_output_tokens t = VInt 125 /\ turn_count t = 3.
Proof.
  assert (H : Forall (fun d => is_Some (integer_output d))
                [usage_event (VInt 1000) (VInt 50);
                 usage_event (VInt 1200) (VInt 75);
                 usage_event (VInt 1400) (VInt 0)]).
  { repeat constructor; eexists; reflexivity. }
  split; [exact H |].
  exact (cumulative_output_is_sum [] _ H).
Defined.

(** Counterexample to C8 as the specification words it: an event whose
    input count is a string is skipped whole, although its extracted output
    count is 50. *)
Lemma turn_count_skips_malformed_event :
  let data := usage_event (VStr "1000") (VInt 50) in
  let t := responses (TokenTracker_init []) [data] in
  snd (_extract_tokens (VDict [("input_tokens", VStr "1000"); ("output_tokens", VInt 50)]))
    = VInt 50 /\
  cumulative_output_tokens t = VInt 0 /\
  turn_count t = 0 /\
  ~ (cumulative_output_tokens t = VInt 50 /\ turn_count t = Z.of_nat (length [data])).
Proof.
  vm_compute. repeat split; try reflexivity. intros [H _]. discriminate H.
Qed.

(** What one event does to the total when its output count cannot lower it. *)
Lemma step_not_lowering (t : TokenTracker) (data : pyval) (c : Z) :
  cumulative_output_tokens t = VInt c ->
  (forall usage, py_get data "usage" = Ok usage ->
                 not_lowering (snd (_extract_tokens usage))) ->
  exists c', cumulative_output_tokens (response_step t data) = VInt c' /\ c <= c'.
Proof.
  unfold response_step, not_lowering. intros Hc H.
  destruct (py_get data "usage") as [usage|]; [|exists c; split; [done | lia]].
  specialize (H usage eq_refl).
  destruct (_extract_tokens usage) as [i o]. simpl in H.
  destruct (py_gt i (VInt 0)) as [positive|]; [|exists c; split; [done | lia]].
  assert (Hc1 : cumulative_output_tokens
                  (if positive then set_latest_input_tokens i t else t) = VInt c)
    by (destruct positive; exact Hc).
  unfold py_add. rewrite Hc1. simpl.
  destruct (as_num o) as [[z|f]|]; simpl.
  - exists (c + z). split; [done | lia].
  - destruct H.
  - exists c. split; [done | lia].
Qed.

(** C9, as the code has it.  On an integer total, a response event whose
    extracted output count is a non-negative integer, or which is skipped
    because a count is no number, never lowers
    [cumulative_output_tokens]. *)
Theorem cumulative_output_monotone (t : TokenTracker) (data : pyval) (c : Z) :
  cumulative_output_tokens t = VInt c ->
  (forall usage, py_get data "usage" = Ok usage ->
                 not_lowering (snd (_extract_tokens usage))) ->
  exists c', cumulative_output_tokens (fst (_handle_response t data)) = VInt c' /\ c <= c'.
Proof. rewrite handle_response_step. apply step_not_lowering. Qed.

Lemma cumulative_output_monotone_witness :
  cumulative_output_tokens (TokenTracker_init []) = VInt 0 /\
  (forall usage, py_get (usage_event (VInt 1000) (VInt 50)) "usage" = Ok usage ->
                 not_lowering (snd (_extract_tokens usage))) /\
  exists c', cumulative_output_tokens
               (fst (_handle_response (TokenTracker_init [])
                       (usage_event (VInt 1000) (VInt 50)))) = VInt c' /\ 0 <= c'.
Proof.
  assert (H : forall usage,
             py_get (usage_event (VInt 1000) (VInt 50)) "usage" = Ok usage ->
             not_lowering (snd (_extract_tokens usage))).
  { intros usage [= <-]. vm_compute. discriminate. }
  split; [reflexivity |]. split; [exact H |].
  exact (cumulative_output_monotone (TokenTracker_init []) _ 0 eq_refl H).
Defined.

(** Counterexample to C9 as the specification words it: a negative output
    count is added as it is. *)
Lemma negative_output_lowers_cumulative :
  let t := TokenTracker_init [] in
  let t' := fst (_handle_response t (usage_event (VInt 1000) (VInt (-5)))) in
  cumulative_output_tokens t = VInt 0 /\
  cumulative_output_tokens t' = VInt (-5) /\
  py_ge (cumulative_output_tokens t') (cumulative_output_tokens t) = Ok false.
Proof. vm_compute. repeat split. Qed.

(** A fractional count is added in floating point, where the total is
    first rounded: on a total of 2^53 + 1 the count 0.5 gives 2^53. *)
Example fractional_output_can_lower_cumulative :
  let t := set_cumulative_output_tokens (VInt (2 ^ 53 + 1)) (TokenTracker_init []) in
  let half := VFloat (S754_finite false 4503599627370496 (-53)) in
  let t' := fst (_handle_response t (usage_event (VInt 5) half)) in
  cumulative_output_tokens t' = VFloat (float_of_Z (2 ^ 53)) /\
  py_ge (cumulative_output_tokens t') (cumulative_output_tokens t) = Ok false.
Proof. vm_compute. split; reflexivity. Qed.

(** *** The sign of the usage fraction *)

Lemma positive_input_positive (data v : pyval) :
  positive_input data = Some v -> py_gt v (VInt 0) = Ok true.
Proof.
  unfold positive_input.
  destruct (py_get data "usage") as [usage|]; [|discriminate].
  destruct (py_gt _ (VInt 0)) as [[|]|] eqn:H; try discriminate.
  by intros [= <-].
Qed.

Lemma zero_or_positive_step (t : TokenTracker) (data : pyval) :
  zero_or_positive (latest_input_tokens t) ->
  zero_or_positive (latest_input_tokens (response_step t data)).
Proof.
  intros H. rewrite latest_after_step.
  destruct (positive_input data) as [v|] eqn:Hd; [|exact H].
  right. by eapply positive_input_positive.
Qed.

Lemma zero_or_positive_responses (events : list pyval) (t : TokenTracker) :
  zero_or_positive (latest_input_tokens t) ->
  zero_or_positive (latest_input_tokens (responses t events)).
Proof.
  revert t. induction events as [|d events IH]; intros t H; [exact H |].
  rewrite responses_cons. apply IH. by apply zero_or_positive_step.
Qed.

Lemma zero_or_positive_num (v : pyval) :
  zero_or_positive v -> exists n, as_num v = Some n /\ num_not_negative n.
Proof.
  intros [-> | H].
  - exists (NI 0). split; [reflexivity | simpl; lia].
  - apply py_gt_true in H as (x & y & Hx & [= <-] & Hc).
    unfold val_of in Hx. destruct (as_num v) as [n|]; [|discriminate].
    exists n. split; [reflexivity |].
    apply not_below_zero_not_negative. intros x' Hx'.
    rewrite Hx in Hx'. injection Hx' as <-. congruence.
Qed.

Lemma zero_or_positive_ge (v : pyval) :
  zero_or_positive v -> py_ge v (VInt 0) = Ok true.
Proof.
  intros [-> | H]; [reflexivity |].
  apply py_gt_true in H as (x & y & Hx & Hy & Hc).
  apply py_ge_true. exists x, y. repeat split; try done. congruence.
Qed.

Lemma not_le_zero_num (v : pyval) :
  py_le v (VInt 0) = Ok false -> exists n, as_num v = Some n /\ num_not_negative n.
Proof.
  unfold py_le, py_compare. destruct (as_num v) as [n|]; [|discriminate].
  simpl. intros H. exists n. split; [reflexivity |].
  apply not_below_zero_not_negative. intros x Hx.
  unfold num_compare in H. rewrite Hx in H. simpl in H.
  destruct (xcompare x (Fin (0 # 1))); congruence.
Qed.

Lemma usage_pct_not_negative (t : TokenTracker) (pct : spec_float) :
  zero_or_positive (latest_input_tokens t) ->
  usage_pct t = Ok pct -> not_negative pct = true.
Proof.
  intros Hl. unfold usage_pct.
  destruct (py_le (context_window t) (VInt 0)) as [[|]|] eqn:Hle; simpl.
  - by intros [= <-].
  - destruct (not_le_zero_num _ Hle) as (nw & Hw & Hnw).
    destruct (zero_or_positive_num _ Hl) as (nl & Hnl & Hl').
    by apply (py_truediv_not_negative _ _ nl nw).
  - discriminate.
Qed.

Lemma negative_input_not_positive (z : Z) (o : pyval) :
  z < 0 -> positive_input (usage_event (VInt z) o) = None.
Proof.
  intros Hz.
  assert (E : positive_input (usage_event (VInt z) o) =
              match py_gt (py_or (VInt z) (VInt 0)) (VInt 0) with
              | Ok true => Some (py_or (VInt z) (VInt 0))
              | _ => None
              end) by reflexivity.
  rewrite E. unfold py_or. cbn [truthy].
  replace (z =? 0) with false by (symmetry; apply Z.eqb_neq; lia).
  cbn [negb]. rewrite py_gt_int_zero.
  by replace (0 <? z) with false by (symmetry; apply Z.ltb_ge; lia).
Qed.

(** C10.  After any sequence of response events on a fresh tracker,
    [latest_input_tokens] is the initial 0 or a value found strictly
    positive, hence not negative; a response that reports a negative input
    count leaves it as it was; and so the usage fraction is never negative
    and [int(usage_pct * 100)] is [floor(usage_pct * 100)]. *)
Theorem latest_input_never_negative (config : list (string * pyval)) (events : list pyval) :
  let t := responses (TokenTracker_init config) events in
  zero_or_positive (latest_input_tokens t) /\
  py_ge (latest_input_tokens t) (VInt 0) = Ok true /\
  (forall (z : Z) (o : pyval),
     z < 0 ->
     latest_input_tokens (fst (_handle_response t (usage_event (VInt z) o)))
       = latest_input_tokens t) /\
  (forall pct : spec_float,
     usage_pct t = Ok pct ->
     py_lt (VFloat pct) (VInt 0) = Ok false /\
     float_to_int (float_mul_int pct 100) = float_floor (float_mul_int pct 100)).
Proof.
  intros t.
  assert (Hok : zero_or_positive (latest_input_tokens t)).
  { apply zero_or_positive_responses. by left. }
  split; [exact Hok |]. split; [by apply zero_or_positive_ge |]. split.
  - intros z o Hz. rewrite handle_response_step, latest_after_step.
    by rewrite negative_input_not_positive.
  - intros pct Hpct.
    pose proof (usage_pct_not_negative t pct Hok Hpct) as Hnn.
    split; [by apply not_negative_not_below_zero |].
    apply float_to_int_is_floor. unfold float_mul_int.
    by apply SFmul_not_negative.
Qed.

Lemma latest_input_never_negative_witness :
  let t := responses (TokenTracker_init []) [usage_event (VInt 58000) (VInt 50)] in
  -7 < 0 /\
  usage_pct t = Ok (S754_finite false 5224175567749775 (-54)) /\
  latest_input_tokens (fst (_handle_response t (usage_event (VInt (-7)) (VInt 1))))
    = VInt 58000 /\
  py_lt (VFloat (S754_finite false 5224175567749775 (-54))) (VInt 0) = Ok false /\
  float_to_int (float_mul_int (S754_finite false 5224175567749775 (-54)) 100) = Ok 28.
Proof.
  destruct (latest_input_never_negative [] [usage_event (VInt 58000) (VInt 50)])
    as (_ & _ & Hneg & Hpct).
  split; [lia |]. split; [reflexivity |]. split.
  - apply (Hneg (-7) (VInt 1)). lia.
  - destruct (Hpct (S754_finite false 5224175567749775 (-54)) eq_refl) as [Hlt _].
    split; [exact Hlt | reflexivity].
Defined.

(** *** Bands *)

Lemma request_informational (t : TokenTracker) (data : pyval) (pct : spec_float) (k : Z) :
  usage_pct t = Ok pct -> float_to_int (float_mul_int pct 100) = Ok k ->
  py_lt (VFloat pct) (soft_threshold t) = Ok true ->
  _handle_request t data = informational_result k (turn_count t).
Proof.
  intros Hp Hk Hs. unfold _handle_request, request_body.
  rewrite Hp. simpl. rewrite Hk. simpl. by rewrite Hs.
Qed.

Lemma request_soft_warning (t : TokenTracker) (data : pyval) (pct : spec_float) (k : Z) :
  usage_pct t = Ok pct -> float_to_int (float_mul_int pct 100) = Ok k ->
  py_lt (VFloat pct) (soft_threshold t) = Ok false ->
  py_lt (VFloat pct) (hard_threshold t) = Ok true ->
  _handle_request t data = soft_warning_result k.
Proof.
  intros Hp Hk Hs Hh. unfold _handle_request, request_body.
  rewrite Hp. simpl. rewrite Hk. simpl. rewrite Hs. simpl. by rewrite Hh.
Qed.

Lemma request_hard_warning (t : TokenTracker) (data : pyval) (pct : spec_float) (k : Z) :
  usage_pct t = Ok pct -> float_to_int (float_mul_int pct 100) = Ok k ->
  py_lt (VFloat pct) (soft_threshold t) = Ok false ->
  py_lt (VFloat pct) (hard_threshold t) = Ok false ->
  _handle_request t data = hard_warning_result k.
Proof.
  intros Hp Hk Hs Hh. unfold _handle_request, request_body.
  rewrite Hp. simpl. rewrite Hk. simpl. rewrite Hs. simpl. by rewrite Hh.
Qed.

(** [b <= a] rules out [a < b]. *)
Lemma le_not_lt (a b : pyval) : py_le b a = Ok true -> py_lt a b = Ok false.
Proof.
  intros H. apply py_le_true in H as (y & x & Hy & Hx & Hc).
  apply (py_lt_false a b x y Hx Hy).
  rewrite xcompare_antisym. destruct (xcompare y x); simpl; congruence.
Qed.

(** [b <= c] and [c <= a] rule out [a < b]. *)
Lemma le_le_not_lt (a b c : pyval) :
  py_le b c = Ok true -> py_ge a c = Ok true -> py_lt a b = Ok false.
Proof.
  intros Hbc Hac.
  apply py_le_true in Hbc as (y & z & Hy & Hz & Hyz).
  apply py_ge_true in Hac as (x & z' & Hx & Hz' & Hxz).
  rewrite Hz in Hz'. injection Hz' as <-.
  apply (py_lt_false a b x y Hx Hy). intros Hxy.
  assert (Hzx : xcompare z x <> Gt).
  { rewrite xcompare_antisym. destruct (xcompare x z); simpl; congruence. }
  pose proof (xcompare_lt_le_trans x y z Hxy Hyz) as Hlt.
  rewrite xcompare_antisym, Hlt in Hzx. simpl in Hzx. congruence.
Qed.

Lemma ge_not_lt (a b : pyval) : py_ge a b = Ok true -> py_lt a b = Ok false.
Proof.
  intros H. apply py_ge_true in H as (x & y & Hx & Hy & Hc).
  by apply (py_lt_false a b x y).
Qed.

Lemma eq_ge (a b : pyval) : py_eq_num a b = Ok true -> py_ge a b = Ok true.
Proof.
  intros H. apply py_eq_num_true in H as (x & y & Hx & Hy & Hc).
  apply py_ge_true. exists x, y. repeat split; try done. congruence.
Qed.

Lemma eq_le (a b : pyval) : py_eq_num a b = Ok true -> py_le b a = Ok true.
Proof.
  intros H. apply py_eq_num_true in H as (x & y & Hx & Hy & Hc).
  apply py_le_true. exists y, x. repeat split; try done.
  rewrite xcompare_antisym, Hc. discriminate.
Qed.

Lemma eq_lt_lt (a b c : pyval) :
  py_eq_num a b = Ok true -> py_lt b c = Ok true -> py_lt a c = Ok true.
Proof.
  intros Hab Hbc.
  apply py_eq_num_true in Hab as (x & y & Hx & Hy & Hxy).
  apply py_lt_true in Hbc as (y' & z & Hy' & Hz & Hyz).
  rewrite Hy in Hy'. injection Hy' as <-.
  apply py_lt_true. exists x, z. repeat split; try done.
  by apply (xcompare_eq_lt_trans x y z).
Qed.

Lemma band_results (k turn : Z) :
  is_injection (informational_result k turn)
    ("[Session Guardian: " +:+ pretty k +:+ "% context used, turn " +:+ pretty turn +:+ "]")
    None /\
  is_injection (soft_warning_result k)
    ("[Session Guardian: " +:+ pretty k
     +:+ "% context — save progress with session_state tool now. Continue working but be concise.]")
    (Some ("Session Guardian: " +:+ pretty k
           +:+ "% context used — saving progress recommended", "warning")) /\
  is_injection (hard_warning_result k)
    ("[Session Guardian: " +:+ pretty k
     +:+ "% context — HANDOFF REQUIRED. Save state immediately and tell the user to start a new session.]")
    (Some ("Session Guardian: " +:+ pretty k +:+ "% context used — handoff required!",
           "error")).
Proof. repeat split. Qed.

(** C1, as the code has it.  On a request event on which the usage
    fraction [pct] and [k = int(pct * 100)] evaluate, the handler selects
    exactly one of three bands from [pct], in ascending order, the first
    match winning.  Below the soft threshold: an ephemeral injection in the
    system role whose text holds the percentage and the turn count only,
    and no user message.  From the soft threshold up to, not including, the
    hard one: the same kind of injection with a warning-level user message.
    From the hard threshold on (with the thresholds in order, or in any
    case when the first band did not match): the injection with an
    error-level user message.  [pct] equal to a threshold selects the upper
    band. *)
Theorem band_selection (t : TokenTracker) (data : pyval) (pct : spec_float) (k : Z) :
  usage_pct t = Ok pct ->
  float_to_int (float_mul_int pct 100) = Ok k ->
  let soft := soft_threshold t in
  let hard := hard_threshold t in
  let r := _handle_request t data in
  let informational :=
    is_injection r
      ("[Session Guardian: " +:+ pretty k +:+ "% context used, turn "
       +:+ pretty (turn_count t) +:+ "]")
      None in
  let warning :=
    is_injection r
      ("[Session Guardian: " +:+ pretty k
       +:+ "% context — save progress with session_state tool now. Continue working but be concise.]")
      (Some ("Session Guardian: " +:+ pretty k
             +:+ "% context used — saving progress recommended", "warning")) in
  let handoff :=
    is_injection r
      ("[Session Guardian: " +:+ pretty k
       +:+ "% context — HANDOFF REQUIRED. Save state immediately and tell the user to start a new session.]")
      (Some ("Session Guardian: " +:+ pretty k +:+ "% context used — handoff required!",
             "error")) in
  (py_lt (VFloat pct) soft = Ok true -> informational) /\
  (py_le soft (VFloat pct) = Ok true -> py_lt (VFloat pct) hard = Ok true -> warning) /\
  (py_le soft hard = Ok true -> py_ge (VFloat pct) hard = Ok true -> handoff) /\
  (py_lt (VFloat pct) soft = Ok false -> py_ge (VFloat pct) hard = Ok true -> handoff) /\
  (py_lt soft hard = Ok true -> py_eq_num (VFloat pct) soft = Ok true -> warning) /\
  (py_le soft hard = Ok true -> py_eq_num (VFloat pct) hard = Ok true -> handoff) /\
  ((exists b, py_lt (VFloat pct) soft = Ok b) ->
   (exists b, py_lt (VFloat pct) hard = Ok b) ->
     (informational /\ ~ warning /\ ~ handoff) \/
     (warning /\ ~ informational /\ ~ handoff) \/
     (handoff /\ ~ informational /\ ~ warning)).
Proof.
  intros Hp Hk soft hard r informational warning handoff.
  destruct (band_results k (turn_count t)) as (Hinfo & Hwarn & Hhand).
  assert (Hi : py_lt (VFloat pct) soft = Ok true -> informational).
  { intros Hs. unfold informational, r.
    by rewrite (request_informational t data pct k Hp Hk Hs). }
  assert (Hw : py_lt (VFloat pct) soft = Ok false ->
               py_lt (VFloat pct) hard = Ok true -> warning).
  { intros Hs Hh. unfold warning, r.
    by rewrite (request_soft_warning t data pct k Hp Hk Hs Hh). }
  assert (Hh : py_lt (VFloat pct) soft = Ok false ->
               py_lt (VFloat pct) hard = Ok false -> handoff).
  { intros Hs Hh. unfold handoff, r.
    by rewrite (request_hard_warning t data pct k Hp Hk Hs Hh). }
  assert (Hlevel : forall text text' m m',
            is_injection r text m -> is_injection r text' m' ->
            snd <$> m = snd <$> m').
  { intros text text' m m' (_ & _ & _ & _ & _ & H1) (_ & _ & _ & _ & _ & H2). congruence. }
  split; [exact Hi |].
  split; [intros Hs Hlt; apply Hw; auto using le_not_lt |].
  split; [intros Hsh Hge; apply Hh; eauto using le_le_not_lt, ge_not_lt |].
  split; [intros Hs Hge; apply Hh; auto using ge_not_lt |].
  split; [intros Hsh He; apply Hw; eauto using le_not_lt, eq_le, eq_lt_lt |].
  split; [intros Hsh He; apply Hh; eauto using le_le_not_lt, ge_not_lt, eq_ge |].
  intros [[|] Hs].
  - intros _. left. split; [by apply Hi |].
    split; intros H; pose proof (Hlevel _ _ _ _ (Hi Hs) H) as Hl; discriminate Hl.
  - intros [[|] Hlt]; right; [left | right].
    + split; [by apply Hw |].
      split; intros H; pose proof (Hlevel _ _ _ _ (Hw Hs Hlt) H) as Hl; discriminate Hl.
    + split; [by apply Hh |].
      split; intros H; pose proof (Hlevel _ _ _ _ (Hh Hs Hlt) H) as Hl; discriminate Hl.
Qed.

Lemma band_selection_witness :
  let t := responses (TokenTracker_init []) [usage_event (VInt 120000) (VInt 800)] in
  usage_pct t = Ok float_0_60 /\
  float_to_int (float_mul_int float_0_60 100) = Ok 60 /\
  py_lt (soft_threshold t) (hard_threshold t) = Ok true /\
  py_eq_num (VFloat float_0_60) (soft_threshold t) = Ok true /\
  is_injection (_handle_request t VNone)
    "[Session Guardian: 60% context — save progress with session_state tool now. Continue working but be concise.]"
    (Some ("Session Guardian: 60% context used — saving progress recommended", "warning")).
Proof.
  split; [reflexivity |]. split; [reflexivity |].
  split; [reflexivity |]. split; [reflexivity |].
  refine (proj1 (proj2 (proj2 (proj2 (proj2
    (band_selection
       (responses (TokenTracker_init []) [usage_event (VInt 120000) (VInt 800)])
       VNone float_0_60 60 eq_refl eq_refl))))) eq_refl eq_refl).
Defined.

(** Counterexample to C1 as the specification words it: a request event on
    which no band is selected.  After a response that reports 10^312 input
    tokens the usage fraction is a finite float far above the hard
    threshold, its hundredfold is infinite, [int()] raises and the handler
    answers with the plain continue result: no injection, no message. *)
Lemma huge_count_selects_no_band :
  let t := responses (TokenTracker_init []) [usage_event (VInt (10 ^ 312)) (VInt 1)] in
  let r := _handle_request t VNone in
  (exists pct,
     usage_pct t = Ok pct /\
     py_ge (VFloat pct) (hard_threshold t) = Ok true /\
     float_to_int (float_mul_int pct 100) = Raise OverflowError) /\
  action r = "continue" /\
  context_injection r = None /\
  user_message r = None /\
  user_message_level r = None /\
  (forall text message, ~ is_injection r text message).
Proof.
  vm_compute. split; [eexists; repeat split |].
  repeat split. intros text message (H & _). discriminate H.
Qed.

(** The float literals are the correctly rounded quotients. *)
Example float_literals :
  int_truediv 6 10 = Ok float_0_60 /\ int_truediv 8 10 = Ok float_0_80.
Proof. split; reflexivity. Qed.

(** On the small window: 45 tokens give the informational band at 45%,
    60 the soft band, 85 the hard band.  The percentage is the float
    product truncated: 29 tokens read 28%. *)
Example bands_on_small_window :
  let after n := responses small_window [usage_event (VInt n) (VInt 1)] in
  _handle_request (after 45) VNone = informational_result 45 1 /\
  _handle_request (after 60) VNone = soft_warning_result 60 /\
  _handle_request (after 85) VNone = hard_warning_result 85 /\
  _handle_request (after 50) VNone = soft_warning_result 50 /\
  _handle_request (after 80) VNone = hard_warning_result 80 /\
  _handle_request (after 29) VNone = informational_result 28 1.
Proof. vm_compute. repeat split. Qed.

(** *** What leaves the handlers *)










(** Failures the handlers absorb: event data that is no dict, a usage
    object whose attribute raises, a token count that is no number, a
    quotient too large for a float. *)
Example response_absorbs_malformed :
  let t := TokenTracker_init [] in
  _handle_response t VNone = (t, continue_result) /\
  _handle_response t (VList [VInt 1]) = (t, continue_result) /\
  _handle_response t
    (VDict [("usage", VObj [("input_tokens", Raise ValueError)])]) =
    (set_turn_count 1 t, continue_result) /\
  _handle_response t (usage_event (VList [VInt 1]) (VInt 5)) = (t, continue_result) /\
  _handle_response t (usage_event (VInt 7) (VStr "many")) =
    (set_latest_input_tokens (VInt 7) t, continue_result).
Proof. vm_compute. repeat split. Qed.

Example request_absorbs_overflow :
  let t := responses (TokenTracker_init []) [usage_event (VInt (10 ^ 400)) (VInt 1)] in
  request_body t = Raise OverflowError /\
  _handle_request t VNone = continue_result.
Proof. vm_compute. repeat split. Qed.

End GuardianFacts.

(** ** The session-state tool *)

Module StoreFacts.
Import Py Store.

Lemma append_cons (a : Ascii.ascii) (s t : string) :
  String a s +:+ t = String a (s +:+ t).
Proof. reflexivity. Qed.

Lemma append_nil_r (s : string) : s +:+ "" = s.
Proof. induction s as [|a s IH]; [done | by rewrite append_cons, IH]. Qed.

Lemma append_assoc (s1 s2 s3 : string) : s1 +:+ (s2 +:+ s3) = (s1 +:+ s2) +:+ s3.
Proof. induction s1 as [|a s1 IH]; [done | by rewrite !append_cons, IH]. Qed.

Lemma occurs_in_join (sep x : string) (parts : list string) :
  x ∈ parts -> occurs_in x (join sep parts).
Proof.
  induction parts as [|y parts IH]; intros Hin; [by apply elem_of_nil in Hin |].
  apply elem_of_cons in Hin as [-> | Hin].
  - destruct parts as [|z parts].
    + exists "", "". simpl. by rewrite append_nil_r.
    + exists "", (sep +:+ join sep (z :: parts)). reflexivity.
  - destruct (IH Hin) as (before & after & Heq).
    destruct parts as [|z parts]; [by apply elem_of_nil in Hin |].
    exists (y +:+ sep +:+ before), after.
    change (join sep (y :: z :: parts)) with (y +:+ sep +:+ join sep (z :: parts)).
    rewrite Heq. by rewrite <- !append_assoc.
Qed.

Lemma occurs_in_suffix (prefix part whole : string) :
  occurs_in part whole -> occurs_in part (prefix +:+ whole).
Proof.
  intros (before & after & ->). exists (prefix +:+ before), after.
  by rewrite <- !append_assoc.
Qed.

Lemma glob_json_elem (d : gmap string entry) (name : string) (e : entry) :
  (name, e) ∈ glob_json d <-> d !! name = Some e /\ ends_with ".json" name = true.
Proof.
  unfold glob_json. rewrite list_elem_of_filter, elem_of_map_to_list. simpl. tauto.
Qed.

Lemma glob_json_nil (d : gmap string entry) :
  (forall name e, d !! name = Some e -> ends_with ".json" name = false) ->
  glob_json d = [].
Proof.
  intros H. destruct (glob_json d) as [|[name e] l] eqn:Hg; [reflexivity |].
  assert (Hin : (name, e) ∈ glob_json d) by (rewrite Hg; apply elem_of_cons; by left).
  apply glob_json_elem in Hin as [Hl He].
  rewrite (H _ _ Hl) in He. discriminate.
Qed.


(** *** Pruning *)

Lemma prune_step_spec (cutoff : Z) (d : gmap string entry) (k : Z) (n : string) (e : entry) :
  prune_step cutoff (d, k) (n, e) =
    if decide (mtime e < cutoff /\ datetime_min <= mtime e < datetime_end /\
               protected e = false)
    then (delete n d, k + 1) else (d, k).
Proof.
  unfold prune_step, fromtimestamp, unlink, try_except. cbn [fst snd].
  destruct (Z.leb_spec datetime_min (mtime e)) as [Hlo | Hlo];
    destruct (Z.ltb_spec (mtime e) datetime_end) as [Hhi | Hhi]; cbn [andb bind];
    try (rewrite decide_False by lia; reflexivity).
  destruct (Z.ltb_spec (mtime e) cutoff) as [Hlt | Hge];
    [|rewrite decide_False by lia; reflexivity].
  destruct (protected e) eqn:Hp; cbn [bind].
  - rewrite decide_False; [reflexivity | intros (_ & _ & ?); discriminate].
  - by rewrite decide_True.
Qed.

Lemma prune_fold (cutoff : Z) (l : list (string * entry)) :
  let gone (e : entry) :=
    mtime e < cutoff /\ datetime_min <= mtime e < datetime_end /\ protected e = false in
  forall (d : gmap string entry) (k : Z),
    let r := fold_left (prune_step cutoff) l (d, k) in
    r.2 = k + Z.of_nat (length (filter (fun f => gone f.2) l)) /\
    (forall name, (exists e, (name, e) ∈ l /\ gone e) -> r.1 !! name = None) /\
    (forall name, ~ (exists e, (name, e) ∈ l /\ gone e) -> r.1 !! name = d !! name) /\
    (forall name, d !! name = None -> r.1 !! name = None).
Proof.
  intros gone. induction l as [|[n e] l IH]; intros d k r.
  - subst r. simpl. split; [lia |]. split; [|done].
    intros name (e & Hin & _). by apply elem_of_nil in Hin.
  - subst r. cbn [fold_left]. rewrite prune_step_spec, filter_cons. cbn [fst snd].
    fold (gone e).
    destruct (decide (gone e)) as [Hg | Hg].
    + destruct (IH (delete n d) (k + 1)) as (Hk & Hnone & Hsame & Hgone). rewrite Hk.
      cbn [length]. split; [lia |]. split; [|split].
      * intros name (e' & Hin & Hg').
        apply elem_of_cons in Hin as [[= -> ->] | Hin].
        -- apply Hgone, lookup_delete_eq.
        -- apply Hnone. eauto.
      * intros name Hno. rewrite Hsame.
        -- apply lookup_delete_ne. intros <-. apply Hno.
           exists e. split; [by apply elem_of_cons; left | done].
        -- intros (e' & Hin & Hg'). apply Hno.
           exists e'. split; [by apply elem_of_cons; right | done].
      * intros name Hd. apply Hgone. apply lookup_delete_None. by right.
    + destruct (IH d k) as (Hk & Hnone & Hsame & Hgone). rewrite Hk.
      split; [done |]. split; [|split; [|done]].
      * intros name (e' & Hin & Hg'). apply Hnone.
        apply elem_of_cons in Hin as [[= -> ->] | Hin]; [done | eauto].
      * intros name Hno. apply Hsame. intros (e' & Hin & Hg').
        apply Hno. exists e'. split; [by apply elem_of_cons; right | done].
Qed.

(** The directory and the count after [_prune_old_states]. *)
Lemma prune_old_states_spec (d : gmap string entry) (now : datetime) :
  let cutoff := now - timedelta_days PRUNE_DAYS in
  _prune_old_states d now =
    (filter (fun f => ~ prunable cutoff f) d,
     Z.of_nat (length (filter (prunable cutoff) (map_to_list d)))).
Proof.
  intros cutoff. unfold _prune_old_states. fold cutoff.
  destruct (prune_fold cutoff (glob_json d) d 0) as (Hk & Hnone & Hsame & _).
  destruct (fold_left (prune_step cutoff) (glob_json d) (d, 0)) as [d' k'].
  cbn [fst snd] in *. f_equal.
  - apply map_eq. intros name.
    destruct (d !! name) as [e|] eqn:Hd.
    + destruct (decide (prunable cutoff (name, e))) as [Hp | Hp].
      * rewrite (proj2 (map_lookup_filter_None _ d name)).
        -- apply Hnone. exists e. destruct Hp as [[Hj Hm] Hpr].
           split; [by apply glob_json_elem | by split].
        -- right. intros e' He'. rewrite Hd in He'. injection He' as <-. tauto.
      * rewrite (proj2 (map_lookup_filter_Some _ d name e)) by done.
        rewrite Hsame; [done |].
        intros (e' & Hin & Hm & Hpr). apply glob_json_elem in Hin as [Hl Hj].
        rewrite Hd in Hl. injection Hl as <-. apply Hp. by split.
    + rewrite (proj2 (map_lookup_filter_None _ d name)) by (by left).
      rewrite Hsame; [done |]. intros (e & Hin & _).
      apply glob_json_elem in Hin as [Hl _]. congruence.
  - rewrite Hk, Z.add_0_l. f_equal. f_equal. unfold glob_json.
    rewrite list_filter_filter. apply list_filter_iff.
    intros [n e]. unfold prunable, stale. simpl. tauto.
Qed.

Lemma ends_with_refl (suffix : string) : ends_with suffix suffix = true.
Proof. destruct suffix; cbn [ends_with]; by rewrite String.eqb_refl. Qed.

Lemma ends_with_append (s suffix : string) : ends_with suffix (s +:+ suffix) = true.
Proof.
  induction s as [|a s IH]; [apply ends_with_refl |].
  rewrite append_cons. cbn [ends_with]. rewrite IH. apply orb_true_r.
Qed.

Lemma glob_json_singleton (name : string) (e : entry) :
  glob_json {[name +:+ ".json" := e]} = [(name +:+ ".json", e)].
Proof.
  unfold glob_json. rewrite map_to_list_singleton.
  rewrite filter_cons_True by apply ends_with_append. reflexivity.
Qed.

Section Operations.

Variable json_dumps : pyval -> result string.
Variable json_loads : string -> result pyval.
Variable exc_text : exn -> string.
Variable py_str : pyval -> string.
Variable error_result : string -> result ToolResult.

#[local] Set Default Proof Using "Type".

(** C3.  A save whose [summary], [accomplished] or [remaining] is missing
    or empty ends in the call [ToolResult(error=<message>)], whose message
    names every missing field, and leaves the file system as it was: no
    directory is made and no file written.  What the caller gets is the
    host's answer to that call.  A host that takes the text hands the
    result back through [execute]; when the host refuses a text in
    [error], the call raises, the [except] clause of [execute] makes a call
    of the same kind, and the host's exception leaves [execute]: no
    validation error is returned. *)
Theorem save_validation_error (coordinator : pyval) (input : list (string * pyval))
    (now : datetime) (fs : filesystem) (field : string) :
  field ∈ required_fields ->
  truthy (dict_get input field VNone) = false ->
  let message := "save_state requires: " +:+ join ", " (missing_fields input) in
  let run := execute json_dumps json_loads exc_text py_str error_result
               coordinator input now fs in
  _save_state json_dumps error_result coordinator input now fs
    = (fs, error_result message) /\
  (forall f, f ∈ required_fields -> truthy (dict_get input f VNone) = false ->
             occurs_in f message) /\
  (dict_get input "operation" VNone = VStr "save_state" ->
   run.1 = fs /\
   (forall r, error_result message = Ok r -> run.2 = Ok r) /\
   (forall e, error_result message = Raise e ->
      run.2 = error_result ("session_state " +:+ py_str (VStr "save_state")
                            +:+ " failed: " +:+ exc_text e)) /\
   (forall e, (forall s, error_result s = Raise e) -> run = (fs, Raise e))).
Proof.
  intros Hreq Hfalsy message run.
  assert (Hmiss : forall f, f ∈ required_fields ->
                            truthy (dict_get input f VNone) = false ->
                            f ∈ missing_fields input).
  { intros f Hf Ht. unfold missing_fields. apply list_elem_of_filter. by split. }
  assert (Hsave : _save_state json_dumps error_result coordinator input now fs
                  = (fs, error_result message)).
  { unfold _save_state. subst message.
    pose proof (Hmiss field Hreq Hfalsy) as Hin.
    destruct (missing_fields input); [by apply elem_of_nil in Hin | reflexivity]. }
  split; [exact Hsave |]. split.
  - intros f Hf Ht. apply occurs_in_suffix, occurs_in_join. by apply Hmiss.
  - intros Hop.
    assert (Hrun : run = (fs, match error_result message with
                              | Ok res => Ok res
                              | Raise e =>
                                  error_result ("session_state " +:+ py_str (VStr "save_state")
                                                +:+ " failed: " +:+ exc_text e)
                              end)).
    { subst run. unfold execute. rewrite Hop. cbn [str_eq].
      change (String.eqb "save_state" "save_state") with true. cbn iota.
      by rewrite Hsave. }
    rewrite Hrun. cbn [fst snd]. split; [reflexivity |]. split; [|split].
    + by intros r ->.
    + by intros e ->.
    + intros e He. by rewrite !He.
Qed.

(** C6.  Loading when the state directory does not exist, or exists and
    holds no snapshot file, returns an output and no error: the
    fresh-session message, with a different text in each of the two
    cases. *)
Theorem load_fresh_session :
  let no_directory :=
    "No session state directory found. This appears to be a fresh session." in
  let no_files := "No state files found. This appears to be a fresh session." in
  _load_state json_dumps json_loads exc_text error_result None = Ok (output_result no_directory) /\
  (forall d : gmap string entry,
     (forall name e, d !! name = Some e -> ends_with ".json" name = false) ->
     _load_state json_dumps json_loads exc_text error_result (Some d) = Ok (output_result no_files)) /\
  no_directory <> no_files /\
  (forall s, error (output_result s) = None /\ output (output_result s) = Some s).
Proof.
  intros no_directory no_files. split; [reflexivity |]. split.
  - intros d H. unfold _load_state. by rewrite (glob_json_nil d H).
  - split; [discriminate | done].
Qed.

Lemma save_state_ok (coordinator : pyval) (input : list (string * pyval))
    (now : datetime) (fs : filesystem) (text : string) :
  missing_fields input = [] ->
  (do state <- build_state input coordinator now ; json_dumps state) = Ok text ->
  let filename := strftime_stamp now +:+ ".json" in
  let written := write_text (mkdir fs) filename (text +:+ newline) now in
  let cutoff := now - timedelta_days PRUNE_DAYS in
  _save_state json_dumps error_result coordinator input now fs =
    (Some (filter (fun f => ~ prunable cutoff f) written),
     Ok (output_result
           ("State saved to " +:+ path_str filename +:+
            pruned_suffix
              (Z.of_nat (length (filter (prunable cutoff) (map_to_list written))))))).
Proof.
  intros Hmiss Htext filename written cutoff.
  unfold _save_state. rewrite Hmiss, Htext.
  fold filename. fold written. by rewrite prune_old_states_spec.
Qed.


(** C4.  On an empty store (no state directory, or an empty one), a save
    that passes validation writes one file; provided the JSON library
    reads the written text back as the document, the load that follows
    returns the text of the saved document verbatim, and the listing
    reports one entry, the file just written. *)
Theorem save_then_load_round_trip (coordinator : pyval) (input : list (string * pyval))
    (now : datetime) (fs : filesystem) (state : pyval) (text : string) :
  fs = None \/ fs = Some ∅ ->
  missing_fields input = [] ->
  build_state input coordinator now = Ok state ->
  json_dumps state = Ok text ->
  json_loads (text +:+ newline) = Ok state ->
  let filename := strftime_stamp now +:+ ".json" in
  let file := {| content := text +:+ newline; mtime := now; protected := false |} in
  let saved := _save_state json_dumps error_result coordinator input now fs in
  saved.2 = Ok (output_result ("State saved to " +:+ path_str filename)) /\
  saved.1 = Some {[filename := file]} /\
  _load_state json_dumps json_loads exc_text error_result saved.1 = Ok (output_result text) /\
  sorted_reverse (glob_json {[filename := file]}) = [(filename, file)] /\
  _list_states saved.1 =
    Ok (output_result ("Found 1 state file(s):" +:+ newline +:+ filename +:+ " ("
                       +:+ pretty (st_size file) +:+ " bytes)")).
Proof.
  clear py_str.
  intros Hfs Hmiss Hstate Htext Hloads filename file saved.
  assert (Hw : write_text (mkdir fs) filename (text +:+ newline) now = {[filename := file]}).
  { unfold write_text.
    replace (mkdir fs) with (∅ : gmap string entry) by (by destruct Hfs as [-> | ->]).
    rewrite lookup_empty. apply insert_empty. }
  assert (Hnp : ~ prunable (now - timedelta_days PRUNE_DAYS) (filename, file)).
  { intros [[_ Hm] _]. simpl in Hm. unfold timedelta_days, PRUNE_DAYS, us_per_day,
      us_per_second in Hm. lia. }
  assert (Hsaved : saved = (Some {[filename := file]},
                            Ok (output_result ("State saved to " +:+ path_str filename)))).
  { subst saved. rewrite (save_state_ok coordinator input now fs text Hmiss).
    - fold filename. rewrite Hw.
      rewrite map_filter_singleton_True by exact Hnp.
      rewrite map_to_list_singleton, filter_cons_False by exact Hnp.
      rewrite filter_nil. cbn [length Z.of_nat pruned_suffix Z.eqb].
      by rewrite append_nil_r.
    - by rewrite Hstate. }
  assert (Hglob : sorted_reverse (glob_json {[filename := file]}) = [(filename, file)]).
  { subst filename. by rewrite glob_json_singleton. }
  rewrite Hsaved. cbn [fst snd].
  split; [reflexivity |]. split; [reflexivity |]. split; [|split; [exact Hglob |]].
  - unfold _load_state. rewrite Hglob. unfold file. cbn [fst snd content].
    rewrite Hloads. cbn [bind]. by rewrite Htext.
  - unfold _list_states. rewrite Hglob. reflexivity.
Qed.

End Operations.

Lemma save_then_load_round_trip_witness :
  let saved := _save_state sample_dumps refused_error sample_coordinator sample_input sample_now None in
  missing_fields sample_input = [] /\
  build_state sample_input sample_coordinator sample_now = Ok sample_state /\
  (exists text,
     sample_dumps sample_state = Ok text /\
     sample_loads [sample_state] (text +:+ newline) = Ok sample_state /\
     _load_state sample_dumps (sample_loads [sample_state]) sample_exc_text refused_error saved.1
       = Ok (output_result text)) /\
  _list_states saved.1 =
    Ok (output_result ("Found 1 state file(s):" +:+ newline
                       +:+ "2026-11-04T01-50-00.json (223 bytes)")).
Proof.
  intros saved. split; [reflexivity |]. split; [reflexivity |].
  destruct (save_then_load_round_trip sample_dumps (sample_loads [sample_state])
              sample_exc_text refused_error sample_coordinator sample_input sample_now None
              sample_state _ (or_introl eq_refl) eq_refl eq_refl eq_refl eq_refl)
    as (_ & _ & Hload & _ & Hlist).
  split; [|exact Hlist].
  eexists. split; [reflexivity |]. split; [reflexivity | exact Hload].
Defined.



Lemma load_fresh_session_witness :
  let d : gmap string entry :=
    {["notes.txt" := {| content := "x"; mtime := 0; protected := false |}]} in
  (forall name e, d !! name = Some e -> ends_with ".json" name = false) /\
  _load_state sample_dumps (sample_loads []) sample_exc_text refused_error (Some d)
    = Ok (output_result "No state files found. This appears to be a fresh session.").
Proof.
  intros d.
  assert (H : forall name e, d !! name = Some e -> ends_with ".json" name = false).
  { intros name e Hl. apply lookup_singleton_Some in Hl as [<- _]. reflexivity. }
  split; [exact H |].
  exact (proj1 (proj2 (load_fresh_session sample_dumps (sample_loads []) sample_exc_text refused_error))
           d H).
Defined.

Lemma save_validation_error_witness :
  let input := [("operation", VStr "save_state");
                ("summary", VStr "half way");
                ("accomplished", VList [VStr "tracker"]);
                ("remaining", VList [])] in
  "remaining" ∈ required_fields /\
  truthy (dict_get input "remaining" VNone) = false /\
  occurs_in "remaining" "save_state requires: remaining" /\
  _save_state sample_dumps refused_error sample_coordinator input sample_now None
    = (None, refused_error "save_state requires: remaining") /\
  execute sample_dumps (sample_loads []) sample_exc_text sample_str refused_error
    sample_coordinator input sample_now None
    = (None, Raise ValidationError) /\
  execute sample_dumps (sample_loads []) sample_exc_text sample_str text_error
    sample_coordinator input sample_now None
    = (None, Ok {| output := None; error := Some "save_state requires: remaining" |}).
Proof.
  intros input.
  assert (Hin : "remaining" ∈ required_fields) by (unfold required_fields; repeat constructor).
  destruct (save_validation_error sample_dumps (sample_loads []) sample_exc_text sample_str
              refused_error sample_coordinator input sample_now None "remaining" Hin eq_refl)
    as (Hsave & Hnames & Hrun).
  destruct (Hrun eq_refl) as (_ & _ & _ & Hraise).
  split; [exact Hin |]. split; [reflexivity |].
  split; [exact (Hnames "remaining" Hin eq_refl) |].
  split; [exact Hsave |].
  split; [exact (Hraise ValidationError (fun _ => eq_refl)) | reflexivity].
Defined.

End StoreFacts.

(** ** Further properties of the guardian *)

Module GuardianExtras.
Import Py PyFacts Guardian GuardianFacts.

Lemma py_or_zero (v : pyval) :
  py_or v (VInt 0) = VInt 0 \/ truthy (py_or v (VInt 0)) = true.
Proof. unfold py_or. destruct (truthy v) eqn:H; [right; exact H | by left]. Qed.

(** X1.  Whatever the usage is, each extracted count is the integer 0 or a
    truthy value: [None], a missing key or attribute and every falsy value
    come out as 0.  For an object, an attribute whose getter raises
    [AttributeError] reads as missing (that count is 0 and the other one is
    kept), and any other exception raised while reading either attribute
    zeroes both counts. *)
Theorem extract_tokens_normalised :
  (forall usage : pyval,
     let p := _extract_tokens usage in
     (p.1 = VInt 0 \/ truthy p.1 = true) /\ (p.2 = VInt 0 \/ truthy p.2 = true)) /\
  (forall (attrs : list (string * result pyval)) (e : exn),
     e <> AttributeError ->
     assoc "input_tokens" attrs = Some (Raise e) \/
     assoc "output_tokens" attrs = Some (Raise e) ->
     _extract_tokens (VObj attrs) = (VInt 0, VInt 0)) /\
  (forall (attrs : list (string * result pyval)) (o : pyval),
     assoc "input_tokens" attrs = Some (Raise AttributeError) ->
     assoc "output_tokens" attrs = Some (Ok o) ->
     _extract_tokens (VObj attrs) = (VInt 0, py_or o (VInt 0))).
Proof.
  split; [|split].
  - intros usage p. subst p.
    destruct usage as [| | | | | |d|attrs]; cbn [_extract_tokens fst snd py_getattr];
      try (split; by left).
    + split; apply py_or_zero.
    + unfold try_except.
      destruct (assoc "input_tokens" attrs) as [[i|[]]|];
        destruct (assoc "output_tokens" attrs) as [[o|[]]|];
        cbn [bind fst snd]; try (split; by left); split;
        first [apply py_or_zero | by left].
  - intros attrs e He [H | H]; cbn [_extract_tokens py_getattr]; rewrite H.
    + by destruct e.
    + destruct (assoc "input_tokens" attrs) as [[i|[]]|]; by destruct e.
  - intros attrs o Hi Ho. cbn [_extract_tokens py_getattr]. by rewrite Hi, Ho.
Qed.

Lemma extract_tokens_normalised_witness :
  ValueError <> AttributeError /\
  _extract_tokens
    (VObj [("input_tokens", Ok (VInt 9)); ("output_tokens", Raise ValueError)])
    = (VInt 0, VInt 0) /\
  _extract_tokens
    (VObj [("input_tokens", Raise AttributeError); ("output_tokens", Ok (VInt 12))])
    = (VInt 0, VInt 12).
Proof.
  assert (H : ValueError <> AttributeError) by discriminate.
  split; [exact H |]. split.
  - apply (proj1 (proj2 extract_tokens_normalised)
             [("input_tokens", Ok (VInt 9)); ("output_tokens", Raise ValueError)]
             ValueError H).
    right. reflexivity.
  - exact (proj2 (proj2 extract_tokens_normalised)
             [("input_tokens", Raise AttributeError); ("output_tokens", Ok (VInt 12))]
             (VInt 12) eq_refl eq_refl).
Defined.

Lemma step_frame (t : TokenTracker) (data : pyval) :
  let t' := response_step t data in
  context_window t' = context_window t /\
  soft_threshold t' = soft_threshold t /\
  hard_threshold t' = hard_threshold t /\
  turn_count t <= turn_count t' <= turn_count t + 1.
Proof.
  unfold response_step.
  destruct (py_get data "usage") as [usage|]; [|simpl; repeat split; lia].
  destruct (_extract_tokens usage) as [i o].
  destruct (py_gt i (VInt 0)) as [[|]|]; [| |simpl; repeat split; lia];
    (destruct (py_add _ o); simpl; repeat split; lia).
Qed.

(** X2.  Response events never touch the configuration, and [turn_count]
    never goes down: after any events it has grown by at most their
    number. *)
Theorem responses_keep_configuration (t : TokenTracker) (events : list pyval) :
  let t' := responses t events in
  context_window t' = context_window t /\
  soft_threshold t' = soft_threshold t /\
  hard_threshold t' = hard_threshold t /\
  turn_count t <= turn_count t' <= turn_count t + Z.of_nat (length events).
Proof.
  revert t. induction events as [|d events IH]; intros t.
  - simpl. repeat split; lia.
  - cbn zeta. rewrite responses_cons.
    destruct (step_frame t d) as (Hw & Hs & Hh & Ht).
    destruct (IH (response_step t d)) as (Hw' & Hs' & Hh' & Ht').
    cbn zeta in *. rewrite Hw', Hs', Hh', Hw, Hs, Hh.
    repeat split; cbn [length]; lia.
Qed.

(** X3.  A response without usage (the key absent, or [None]) counts as a
    turn and changes nothing else: on an integer total, the counts stay and
    [turn_count] grows by one. *)
Theorem response_without_usage (t : TokenTracker) (data : pyval) (c : Z) :
  cumulative_output_tokens t = VInt c ->
  py_get data "usage" = Ok VNone ->
  let t' := fst (_handle_response t data) in
  latest_input_tokens t' = latest_input_tokens t /\
  cumulative_output_tokens t' = VInt c /\
  turn_count t' = turn_count t + 1.
Proof.
  intros Hc Hu t'. subst t'. rewrite handle_response_step.
  unfold response_step. rewrite Hu. cbn [_extract_tokens].
  change (py_gt (VInt 0) (VInt 0)) with (Ok false : result bool).
  unfold py_add. rewrite Hc. cbn. rewrite Z.add_0_r. done.
Qed.

Lemma response_without_usage_witness :
  cumulative_output_tokens (TokenTracker_init []) = VInt 0 /\
  py_get (VDict [("model", VStr "m")]) "usage" = Ok VNone /\
  turn_count (fst (_handle_response (TokenTracker_init []) (VDict [("model", VStr "m")])))
    = 0 + 1.
Proof.
  split; [reflexivity |]. split; [reflexivity |].
  exact (proj2 (proj2 (response_without_usage (TokenTracker_init [])
                         (VDict [("model", VStr "m")]) 0 eq_refl eq_refl))).
Defined.

(** X4.  The update is not atomic: when the input count is positive and the
    output count is no number, the input count is recorded, and the total
    and the turn count are left as they were. *)
Theorem response_partial_update (t : TokenTracker) (data usage i o : pyval) :
  py_get data "usage" = Ok usage ->
  _extract_tokens usage = (i, o) ->
  py_gt i (VInt 0) = Ok true ->
  as_num o = None ->
  let t' := fst (_handle_response t data) in
  latest_input_tokens t' = i /\
  cumulative_output_tokens t' = cumulative_output_tokens t /\
  turn_count t' = turn_count t.
Proof.
  intros Hu He Hi Ho t'. subst t'. rewrite handle_response_step.
  unfold response_step. rewrite Hu, He, Hi.
  unfold py_add. rewrite Ho.
  by destruct (as_num (cumulative_output_tokens _)) as [[?|?]|].
Qed.

Lemma response_partial_update_witness :
  let data := usage_event (VInt 700) (VStr "many") in
  py_get data "usage" = Ok (VDict [("input_tokens", VInt 700); ("output_tokens", VStr "many")]) /\
  py_gt (VInt 700) (VInt 0) = Ok true /\
  as_num (VStr "many") = None /\
  latest_input_tokens (fst (_handle_response (TokenTracker_init []) data)) = VInt 700 /\
  turn_count (fst (_handle_response (TokenTracker_init []) data)) = 0.
Proof.
  intros data. split; [reflexivity |]. split; [reflexivity |]. split; [reflexivity |].
  destruct (response_partial_update (TokenTracker_init []) data _ _ _
              eq_refl eq_refl eq_refl eq_refl) as (Hl & _ & Ht).
  split; [exact Hl | exact Ht].
Defined.




Lemma le_lt_lt (a b c : pyval) :
  py_le a b = Ok true -> py_lt b c = Ok true -> py_lt a c = Ok true.
Proof.
  intros Hab Hbc.
  apply py_le_true in Hab as (x & y & Hx & Hy & Hxy).
  apply py_lt_true in Hbc as (y' & z & Hy' & Hz & Hyz).
  rewrite Hy in Hy'. injection Hy' as <-.
  apply py_lt_true. exists x, z. repeat split; try done.
  destruct (xcompare x y) eqn:Hc; [|by apply (xcompare_lt_le_trans x y z);
                                     [|rewrite Hyz] | done].
  by apply (xcompare_eq_lt_trans x y z).
Qed.

Lemma py_lt_float_raise (p q : spec_float) (x : pyval) (e : exn) :
  py_lt (VFloat p) x = Raise e -> py_lt (VFloat q) x = Raise e.
Proof.
  unfold py_lt, py_compare. cbn [as_num].
  by destruct (as_num x).
Qed.

Lemma severity_bounds (k turn : Z) :
  severity continue_result = 0 /\
  severity (informational_result k turn) = 0 /\
  severity (soft_warning_result k) = 1 /\
  severity (hard_warning_result k) = 2.
Proof. done. Qed.

(** X6.  Where a band is computed, more usage never softens the verdict:
    for two trackers with the same thresholds on which the usage fractions
    and their percentages [int(p * 100)] evaluate, and whose fractions are
    in order, the result for the lower fraction is no more severe (none,
    warning, error) than the result for the higher one.  (Where the
    percentage does not evaluate the handler falls back to the continue
    result, whatever the fraction.) *)
Theorem severity_monotone (t1 t2 : TokenTracker) (d1 d2 : pyval)
    (p1 p2 : spec_float) (k1 k2 : Z) :
  soft_threshold t1 = soft_threshold t2 ->
  hard_threshold t1 = hard_threshold t2 ->
  usage_pct t1 = Ok p1 -> usage_pct t2 = Ok p2 ->
  float_to_int (float_mul_int p1 100) = Ok k1 ->
  float_to_int (float_mul_int p2 100) = Ok k2 ->
  py_le (VFloat p1) (VFloat p2) = Ok true ->
  severity (_handle_request t1 d1) <= severity (_handle_request t2 d2).
Proof.
  intros Hs Hh Hp1 Hp2 Hk1 Hk2 Hle.
  unfold _handle_request, request_body.
  rewrite Hp1, Hp2. cbn [bind]. rewrite Hk1, Hk2. cbn [bind]. rewrite Hs, Hh.
  destruct (py_lt (VFloat p2) (soft_threshold t2)) as [[|]|] eqn:Hs2.
  - rewrite (le_lt_lt _ _ _ Hle Hs2). cbn. lia.
  - destruct (py_lt (VFloat p1) (soft_threshold t2)) as [[|]|] eqn:Hs1.
    + cbn. destruct (py_lt (VFloat p2) (hard_threshold t2)) as [[|]|]; cbn; lia.
    + cbn [bind]. destruct (py_lt (VFloat p2) (hard_threshold t2)) as [[|]|] eqn:Hh2.
      * rewrite (le_lt_lt _ _ _ Hle Hh2). cbn. lia.
      * destruct (py_lt (VFloat p1) (hard_threshold t2)) as [[|]|]; cbn; lia.
      * rewrite (py_lt_float_raise p2 p1 _ _ Hh2). cbn. lia.
    + rewrite (py_lt_float_raise p1 p2 _ _ Hs1) in Hs2. discriminate.
  - rewrite (py_lt_float_raise p2 p1 _ _ Hs2). cbn. lia.
Qed.

Lemma severity_monotone_witness :
  let t1 := responses small_window [usage_event (VInt 45) (VInt 1)] in
  let t2 := responses small_window [usage_event (VInt 60) (VInt 1)] in
  (exists p1 p2,
     usage_pct t1 = Ok p1 /\ usage_pct t2 = Ok p2 /\
     float_to_int (float_mul_int p1 100) = Ok 45 /\
     float_to_int (float_mul_int p2 100) = Ok 60 /\
     py_le (VFloat p1) (VFloat p2) = Ok true) /\
  severity (_handle_request t1 VNone) <= severity (_handle_request t2 VNone).
Proof.
  intros t1 t2. split.
  - eexists _, _. repeat split; reflexivity.
  - exact (severity_monotone t1 t2 VNone VNone _ _ 45 60
             eq_refl eq_refl eq_refl eq_refl eq_refl eq_refl eq_refl).
Defined.

Lemma prefix_append (s t : string) : String.prefix s (s +:+ t) = true.
Proof.
  induction s as [|a s IH]; [by destruct t |].
  rewrite StoreFacts.append_cons. cbn [String.prefix].
  by destruct (Ascii.ascii_dec a a).
Qed.

Lemma request_cases (t : TokenTracker) (data : pyval) :
  _handle_request t data = continue_result \/
  exists k, _handle_request t data = informational_result k (turn_count t) \/
            _handle_request t data = soft_warning_result k \/
            _handle_request t data = hard_warning_result k.
Proof.
  unfold _handle_request, request_body.
  destruct (usage_pct t) as [pct|]; [|by left]. cbn [bind].
  destruct (float_to_int _) as [k|]; [|by left]. cbn [bind].
  destruct (py_lt _ (soft_threshold t)) as [[|]|]; [right; exists k; by left | | by left].
  cbn [bind].
  destruct (py_lt _ (hard_threshold t)) as [[|]|]; [| | by left];
    right; exists k; cbn; auto.
Qed.

(** X7.  Every result of the request handler that is not the plain
    continue result is an ephemeral injection in the system role whose
    text opens with the guardian's tag, and it carries a user message
    exactly when it carries a level. *)
Theorem request_result_shape (t : TokenTracker) (data : pyval) :
  let r := _handle_request t data in
  r = continue_result \/
  (action r = "inject_context" /\
   context_injection_role r = Some "system" /\
   ephemeral r = Some true /\
   (exists text, context_injection r = Some text /\
                 String.prefix "[Session Guardian: " text = true) /\
   (user_message r = None <-> user_message_level r = None)).
Proof.
  intros r. subst r.
  destruct (request_cases t data) as [-> | (k & [-> | [-> | ->]])];
    [by left | right..];
    (split; [reflexivity |]; split; [reflexivity |]; split; [reflexivity |];
     split; [eexists; split; [reflexivity | apply prefix_append] | by split]).
Qed.

Lemma py_le_int_zero (z : Z) : py_le (VInt z) (VInt 0) = Ok (z <=? 0).
Proof.
  unfold py_le, py_compare, num_compare. cbn [as_num num_val bind xcompare].
  rewrite Qcompare_int_zero. unfold Z.leb. by destruct (z ?= 0).
Qed.

(** X8.  A window that is not positive switches the budget off instead of
    dividing by it: the usage fraction is then 0.0 whatever was counted,
    and with a soft threshold above zero every request gets the
    informational result at 0%.  With an [int] window and an [int] count
    the fraction never fails on a division by zero. *)
Theorem nonpositive_window_reads_zero :
  (forall (t : TokenTracker) (w : Z) (data : pyval),
     context_window t = VInt w -> w <= 0 ->
     usage_pct t = Ok (S754_zero false) /\
     (py_lt (VFloat (S754_zero false)) (soft_threshold t) = Ok true ->
      _handle_request t data = informational_result 0 (turn_count t))) /\
  (forall (t : TokenTracker) (w a : Z),
     context_window t = VInt w -> latest_input_tokens t = VInt a ->
     usage_pct t <> Raise ZeroDivisionError).
Proof.
  split.
  - intros t w data Hw Hneg.
    assert (Hp : usage_pct t = Ok (S754_zero false)).
    { unfold usage_pct. rewrite Hw, py_le_int_zero.
      by replace (w <=? 0) with true by (symmetry; apply Z.leb_le; lia). }
    split; [exact Hp |]. intros Hs.
    by apply (request_informational t data (S754_zero false) 0).
  - intros t w a Hw Ha. unfold usage_pct. rewrite Hw, Ha, py_le_int_zero.
    destruct (Z.leb_spec w 0) as [Hle | Hgt]; cbn [bind]; [discriminate |].
    unfold py_truediv, int_truediv. cbn [as_num].
    replace (w =? 0) with false by (symmetry; apply Z.eqb_neq; lia).
    destruct (a =? 0); [discriminate |].
    destruct (SFdiv_core_binary _ _ _ _ _ _) as [[mz ez] lz].
    destruct (binary_round_aux _ _ _ _ _ _); discriminate.
Qed.

Lemma nonpositive_window_reads_zero_witness :
  let t := responses (TokenTracker_init [("context_window", VInt 0)])
             [usage_event (VInt 150000) (VInt 10)] in
  context_window t = VInt 0 /\ 0 <= 0 /\
  py_lt (VFloat (S754_zero false)) (soft_threshold t) = Ok true /\
  latest_input_tokens t = VInt 150000 /\
  _handle_request t VNone = informational_result 0 1.
Proof.
  intros t. split; [reflexivity |]. split; [lia |]. split; [reflexivity |].
  split; [reflexivity |].
  refine (proj2 (proj1 nonpositive_window_reads_zero t 0 VNone eq_refl _) eq_refl). lia.
Defined.

End GuardianExtras.

(** ** Further properties of the session-state tool *)

Module StoreExtras.
Import Py Store StoreFacts.

(** *** Sorting by name *)

#[local] Instance name_ge_transitive : Transitive name_ge.
Proof.
  intros a b c Hab Hbc. unfold name_ge in *.
  apply Is_true_true. apply Is_true_true in Hab, Hbc.
  exact (transitivity (R := String.le) Hbc Hab).
Qed.

#[local] Instance name_ge_total : Total name_ge.
Proof.
  intros a b. unfold name_ge.
  destruct (String.leb_total b.1 a.1); auto.
Qed.

Lemma sorted_reverse_spec (files : list (string * entry)) :
  sorted_reverse files ≡ₚ files /\ StronglySorted name_ge (sorted_reverse files).
Proof.
  unfold sorted_reverse. split; [apply merge_sort_Permutation |].
  apply StronglySorted_merge_sort; apply _.
Qed.

(** The snapshot whose name is greatest comes first. *)
Lemma latest_is_head (d : gmap string entry) (name : string) (e : entry) :
  d !! name = Some e -> ends_with ".json" name = true ->
  (forall other e', d !! other = Some e' -> ends_with ".json" other = true ->
                    String.leb other name = true) ->
  exists rest, sorted_reverse (glob_json d) = (name, e) :: rest.
Proof.
  intros Hl Hj Hmax.
  destruct (sorted_reverse_spec (glob_json d)) as [Hperm Hsorted].
  assert (Hin : (name, e) ∈ sorted_reverse (glob_json d)).
  { rewrite Hperm. by apply glob_json_elem. }
  destruct (sorted_reverse (glob_json d)) as [|[n0 e0] rest]; [by apply elem_of_nil in Hin |].
  exists rest. f_equal.
  assert (H0 : (n0, e0) ∈ glob_json d).
  { rewrite <- Hperm. apply elem_of_cons. by left. }
  apply glob_json_elem in H0 as [Hl0 Hj0].
  apply elem_of_cons in Hin as [Heq | Hin]; [done |].
  apply StronglySorted_inv in Hsorted as [_ Hall].
  rewrite Forall_forall in Hall. specialize (Hall _ Hin). unfold name_ge in Hall.
  cbn in Hall.
  assert (n0 = name) as -> by (apply String.leb_antisym; [exact (Hmax _ _ Hl0 Hj0) | exact Hall]).
  rewrite Hl in Hl0. by injection Hl0 as ->.
Qed.

Lemma filter_none {A} (P : A -> Prop) `{!forall x, Decision (P x)} (l : list A) :
  (forall x, x ∈ l -> ~ P x) -> filter P l = [].
Proof.
  induction l as [|x l IH]; intros Hno; [reflexivity |].
  rewrite filter_cons_False by (apply Hno, elem_of_cons; by left).
  apply IH. intros y Hy. apply Hno, elem_of_cons. by right.
Qed.

Lemma filter_split_length {A} (P : A -> Prop) `{!forall x, Decision (P x)} (l : list A) :
  length l = (length (filter P l) + length (filter (fun x => ~ P x) l))%nat.
Proof.
  induction l as [|x l IH]; [reflexivity |].
  rewrite !filter_cons. destruct (decide (P x)), (decide (~ P x)); try tauto;
    cbn [length]; lia.
Qed.

Lemma map_to_list_filter_perm (P : string * entry -> Prop)
    `{!forall x, Decision (P x)} (d : gmap string entry) :
  map_to_list (filter P d) ≡ₚ filter P (map_to_list d).
Proof.
  apply NoDup_Permutation.
  - apply NoDup_map_to_list.
  - apply NoDup_filter, NoDup_map_to_list.
  - intros [n e]. rewrite elem_of_map_to_list, map_lookup_filter_Some,
      list_elem_of_filter, elem_of_map_to_list. tauto.
Qed.

Lemma leb_refl (x : string) : String.leb x x = true.
Proof. by destruct (String.leb_total x x). Qed.

Lemma written_not_prunable (d : gmap string entry) (name text : string) (now : datetime) :
  exists file,
    write_text d name text now !! name = Some file /\
    content file = text /\ mtime file = now /\
    ~ prunable (now - timedelta_days PRUNE_DAYS) (name, file).
Proof.
  unfold write_text. eexists. split; [apply lookup_insert_eq |].
  split; [reflexivity |]. split; [reflexivity |].
  intros [[_ Hm] _]. cbn in Hm.
  unfold timedelta_days, PRUNE_DAYS, us_per_day, us_per_second in Hm. lia.
Qed.

(** A value that passed [if input.get(k)] is there for [input[k]]. *)
Lemma truthy_item (d : list (string * pyval)) (k : string) :
  truthy (dict_get d k VNone) = true ->
  exists v, assoc k d = Some v /\ dict_item d k = Ok v /\ truthy v = true.
Proof.
  unfold dict_get, dict_item. destruct (assoc k d) as [v|]; [eauto | discriminate].
Qed.

Lemma missing_none (input : list (string * pyval)) (k : string) :
  missing_fields input = [] -> k ∈ required_fields ->
  truthy (dict_get input k VNone) = true.
Proof.
  intros Hm Hk. destruct (truthy (dict_get input k VNone)) eqn:Ht; [done |].
  by destruct (filter_nil_not_elem_of _ _ k Hm Ht).
Qed.

Lemma enum_operations (op : pyval) :
  op ∈ schema_enum INPUT_SCHEMA "operation" <->
  op = VStr "save_state" \/ op = VStr "load_state" \/ op = VStr "list_states".
Proof.
  change (schema_enum INPUT_SCHEMA "operation")
    with [VStr "save_state"; VStr "load_state"; VStr "list_states"].
  rewrite !elem_of_cons, elem_of_nil. tauto.
Qed.

Lemma str_eq_true (v : pyval) (s : string) : str_eq v s = true <-> v = VStr s.
Proof.
  split; [|by intros ->; cbn; apply String.eqb_refl].
  destruct v; try discriminate. cbn. by intros ->%String.eqb_eq.
Qed.

(** *** File names and time *)

Lemma all_from_spec (p : Z -> bool) (n : nat) (z : Z) :
  all_from p n z = true -> forall i, z <= i < z + Z.of_nat n -> p i = true.
Proof.
  revert z. induction n as [|n IH]; intros z H i Hi; [lia |].
  cbn [all_from] in H. apply andb_true_iff in H as [Hz Hrest].
  destruct (decide (i = z)) as [-> | Hne]; [exact Hz |].
  apply (IH (z + 1) Hrest). lia.
Qed.

Lemma year_days_ok : all_from year_day_ok 366 0 = true.
Proof. vm_cast_no_check (eq_refl true). Qed.

Lemma year_day (doy : Z) :
  0 <= doy <= 365 ->
  1 <= (month_day doy).1 <= 12 /\ 1 <= (month_day doy).2 <= 31 /\
  301 <= doy_key doy <= 10229 /\
  (doy < 365 -> doy_key doy < doy_key (doy + 1)).
Proof.
  intros Hd. pose proof (all_from_spec _ _ _ year_days_ok doy) as H.
  specialize (H ltac:(lia)). unfold year_day_ok in H.
  destruct (month_day doy) as [m d]. cbn [fst snd]. lia.
Qed.

Lemma year_mono (n : nat) (i : Z) :
  0 <= i -> i + Z.of_nat n <= 365 ->
  doy_key i + Z.of_nat n <= doy_key (i + Z.of_nat n).
Proof.
  induction n as [|n IH]; intros Hi Hn.
  - replace (i + Z.of_nat 0) with i by lia. lia.
  - specialize (IH Hi ltac:(lia)).
    destruct (year_day (i + Z.of_nat n) ltac:(lia)) as (_ & _ & _ & Hstep).
    specialize (Hstep ltac:(lia)).
    replace (i + Z.of_nat (S n)) with (i + Z.of_nat n + 1) by lia. lia.
Qed.

Lemma year_of_era_spec (doe : Z) :
  0 <= doe <= 146096 ->
  0 <= year_of_era doe <= 399 /\
  0 <= doe - days_before_year (year_of_era doe) <= 365 /\
  doe < days_before_year (year_of_era doe + 1) + (year_of_era doe + 1) / 400.
Proof.
  intros H. unfold year_of_era, days_before_year. Z.div_mod_to_equations. lia.
Qed.

Lemma year_of_era_mono (doe1 doe2 : Z) :
  0 <= doe1 -> doe1 <= doe2 -> doe2 <= 146096 ->
  year_of_era doe1 <= year_of_era doe2.
Proof.
  intros H0 H1 H2.
  destruct (year_of_era_spec doe1 ltac:(lia)) as (Hy1 & Hd1 & _).
  destruct (year_of_era_spec doe2 ltac:(lia)) as (Hy2 & _ & Hn2).
  set (y1 := year_of_era doe1) in *. set (y2 := year_of_era doe2) in *.
  clearbody y1 y2. unfold days_before_year in *.
  Z.div_mod_to_equations. lia.
Qed.

Lemma date_key_split (z : Z) :
  let era := (z + 719468) / 146097 in
  let doe := (z + 719468) mod 146097 in
  let yoe := year_of_era doe in
  let doy := doe - days_before_year yoe in
  civil_from_days z =
    ((if (month_day doy).1 <=? 2 then yoe + era * 400 + 1 else yoe + era * 400),
     (month_day doy).1, (month_day doy).2) /\
  date_key (civil_from_days z) = era * 4000000 + yoe * 10000 + doy_key doy.
Proof.
  intros era doe yoe doy.
  assert (Hc : civil_from_days z =
    ((if (month_day doy).1 <=? 2 then yoe + era * 400 + 1 else yoe + era * 400),
     (month_day doy).1, (month_day doy).2)).
  { unfold civil_from_days. cbn zeta.
    replace (z + 719468 - (z + 719468) / 146097 * 146097) with doe
      by (unfold doe; rewrite Z.mod_eq by lia; lia).
    reflexivity. }
  split; [exact Hc |]. rewrite Hc. unfold date_key, doy_key.
  destruct (month_day doy) as [m d]. cbn [fst snd]. destruct (m <=? 2); lia.
Qed.

Lemma date_key_mono (z1 z2 : Z) :
  z1 < z2 -> date_key (civil_from_days z1) < date_key (civil_from_days z2).
Proof.
  intros Hlt.
  rewrite (proj2 (date_key_split z1)), (proj2 (date_key_split z2)).
  set (e1 := (z1 + 719468) / 146097). set (e2 := (z2 + 719468) / 146097).
  set (d1 := (z1 + 719468) mod 146097). set (d2 := (z2 + 719468) mod 146097).
  assert (Hd1 : 0 <= d1 < 146097) by (apply Z.mod_pos_bound; lia).
  assert (Hd2 : 0 <= d2 < 146097) by (apply Z.mod_pos_bound; lia).
  assert (H1 : z1 + 719468 = 146097 * e1 + d1) by (apply Z.div_mod; lia).
  assert (H2 : z2 + 719468 = 146097 * e2 + d2) by (apply Z.div_mod; lia).
  destruct (year_of_era_spec d1 ltac:(lia)) as (Hy1 & Hdy1 & _).
  destruct (year_of_era_spec d2 ltac:(lia)) as (Hy2 & Hdy2 & _).
  destruct (year_day _ Hdy1) as (_ & _ & Hk1 & _).
  destruct (year_day _ Hdy2) as (_ & _ & Hk2 & _).
  destruct (decide (e1 = e2)) as [He | He]; [|assert (e1 < e2) by lia; lia].
  assert (Hd : d1 < d2) by lia.
  pose proof (year_of_era_mono d1 d2 ltac:(lia) ltac:(lia) ltac:(lia)) as Hy.
  destruct (decide (year_of_era d1 = year_of_era d2)) as [Hye | Hye]; [|lia].
  rewrite He, Hye in *.
  set (a := d1 - days_before_year (year_of_era d2)) in *.
  set (b := d2 - days_before_year (year_of_era d2)) in *.
  pose proof (year_mono (Z.to_nat (b - a)) a ltac:(lia) ltac:(lia)) as Hm.
  replace (a + Z.of_nat (Z.to_nat (b - a))) with b in Hm by lia. lia.
Qed.

Lemma civil_fields (z : Z) :
  -354285 <= z <= 2932896 ->
  let c := civil_from_days z in
  1000 <= c.1.1 <= 9999 /\ 1 <= c.1.2 <= 12 /\ 1 <= c.2 <= 31.
Proof.
  intros Hz c.
  assert (Hm : 1 <= c.1.2 <= 12 /\ 1 <= c.2 <= 31).
  { unfold c. rewrite (proj1 (date_key_split z)). cbn [fst snd].
    destruct (year_of_era_spec ((z + 719468) mod 146097)) as (_ & Hdoy & _).
    { pose proof (Z.mod_pos_bound (z + 719468) 146097). lia. }
    destruct (year_day _ Hdoy) as (? & ? & _). done. }
  assert (Hlo : 10000101 <= date_key c).
  { destruct (decide (z = -354285)) as [-> | ?]; [by vm_compute |].
    pose proof (date_key_mono (-354285) z ltac:(lia)) as H.
    change (date_key (civil_from_days (-354285))) with 10000101 in H. unfold c. lia. }
  assert (Hhi : date_key c <= 99991231).
  { destruct (decide (z = 2932896)) as [-> | ?]; [by vm_compute |].
    pose proof (date_key_mono z 2932896 ltac:(lia)) as H.
    change (date_key (civil_from_days 2932896)) with 99991231 in H. unfold c. lia. }
  unfold date_key in Hlo, Hhi. lia.
Qed.

Lemma time_key_mono (s1 s2 : Z) :
  0 <= s1 -> s1 < s2 -> time_key s1 < time_key s2.
Proof. intros H1 H2. unfold time_key. Z.div_mod_to_equations. lia. Qed.

Lemma time_fields (s : Z) :
  0 <= s < 86400 ->
  0 <= s / 3600 < 100 /\ 0 <= s / 60 mod 60 < 100 /\ 0 <= s mod 60 < 100.
Proof. intros H. Z.div_mod_to_equations. lia. Qed.

Lemma second_key_mono (s1 s2 : Z) : s1 < s2 -> second_key s1 < second_key s2.
Proof.
  intros Hlt. unfold second_key.
  assert (Hr1 : 0 <= s1 mod 86400 < 86400) by (apply Z.mod_pos_bound; lia).
  assert (Hr2 : 0 <= s2 mod 86400 < 86400) by (apply Z.mod_pos_bound; lia).
  assert (Ht : forall s, 0 <= s < 86400 -> 0 <= time_key s < 1000000).
  { intros s Hs. unfold time_key. Z.div_mod_to_equations. lia. }
  pose proof (Ht _ Hr1). pose proof (Ht _ Hr2).
  destruct (decide (s1 / 86400 = s2 / 86400)) as [He | He].
  - rewrite He. assert (s1 mod 86400 < s2 mod 86400).
    { rewrite !Z.mod_eq by lia. lia. }
    pose proof (time_key_mono (s1 mod 86400) (s2 mod 86400) ltac:(lia) ltac:(lia)). lia.
  - assert (s1 / 86400 < s2 / 86400).
    { pose proof (Z.div_le_mono s1 s2 86400 ltac:(lia) ltac:(lia)). lia. }
    pose proof (date_key_mono _ _ H1). lia.
Qed.

Lemma compare_lex (B a r a' r' : Z) :
  0 <= r < B -> 0 <= r' < B ->
  (a * B + r ?= a' * B + r') = lexc (a ?= a') (r ?= r').
Proof.
  intros Hr Hr'. unfold lexc. destruct (Z.compare_spec a a') as [-> | Hlt | Hgt].
  - destruct (Z.compare_spec r r'); [apply Z.compare_eq_iff | apply Z.compare_lt_iff
                                     | apply Z.compare_gt_iff]; lia.
  - apply Z.compare_lt_iff. nia.
  - apply Z.compare_gt_iff. nia.
Qed.

Lemma compare_append (a b r s : string) :
  String.length a = String.length b ->
  String.compare (a +:+ r) (b +:+ s) = lexc (String.compare a b) (String.compare r s).
Proof.
  revert b. induction a as [|c a IH]; intros [|c' b] Hlen; try discriminate Hlen.
  - reflexivity.
  - rewrite !append_cons. cbn [String.compare]. destruct (Ascii.compare c c'); try done.
    apply IH. by injection Hlen.
Qed.

Lemma two_digits_ok : all_from two_digit_ok 100 0 = true.
Proof. vm_cast_no_check (eq_refl true). Qed.

Lemma two_digits (a b : Z) :
  0 <= a < 100 -> 0 <= b < 100 ->
  String.length (digits 2 a) = 2%nat /\
  String.compare (digits 2 a) (digits 2 b) = (a ?= b).
Proof.
  intros Ha Hb. pose proof (all_from_spec _ _ _ two_digits_ok a ltac:(lia)) as H.
  unfold two_digit_ok in H. apply andb_true_iff in H as [Hlen Hcmp].
  split; [by apply Nat.eqb_eq in Hlen |].
  pose proof (all_from_spec _ _ _ Hcmp b ltac:(lia)) as H. cbv beta in H.
  by destruct (String.compare _ _), (a ?= b).
Qed.

Lemma four_digits_ok : all_from four_digit_ok (Z.to_nat 9000) 1000 = true.
Proof. vm_cast_no_check (eq_refl true). Qed.

Lemma four_digits (y : Z) :
  1000 <= y <= 9999 -> digits 4 y = digits 2 (y / 100) +:+ digits 2 (y mod 100).
Proof.
  intros Hy. pose proof (all_from_spec _ _ _ four_digits_ok y ltac:(lia)) as H.
  by apply String.eqb_eq in H.
Qed.

Lemma stamp_seconds (now : datetime) :
  let s := now / us_per_second in
  now / us_per_day = s / 86400 /\ now mod us_per_day / us_per_second = s mod 86400.
Proof.
  unfold us_per_day, us_per_second. cbn zeta. Z.div_mod_to_equations. lia.
Qed.

Lemma lexc_eq_r (c : comparison) : lexc c Eq = c.
Proof. by destruct c. Qed.

Lemma string_compare_refl (s : string) : String.compare s s = Eq.
Proof.
  induction s as [|c s IH]; [done |]. cbn [String.compare].
  unfold Ascii.compare. by rewrite N.compare_refl.
Qed.

Lemma compare_sep (sep r s : string) :
  String.compare (sep +:+ r) (sep +:+ s) = String.compare r s.
Proof. rewrite compare_append by done. by rewrite string_compare_refl. Qed.

Lemma compare_digits (a b : Z) (r s : string) :
  0 <= a < 100 -> 0 <= b < 100 ->
  String.compare (digits 2 a +:+ r) (digits 2 b +:+ s)
  = lexc (a ?= b) (String.compare r s).
Proof.
  intros Ha Hb. destruct (two_digits a b Ha Hb) as [Hla Hc].
  destruct (two_digits b a Hb Ha) as [Hlb _].
  by rewrite compare_append, Hc by (by rewrite Hla, Hlb).
Qed.

Lemma field_stamp_compare (c1 c2 m d h i x c1' c2' m' d' h' i' x' : Z) :
  0 <= c1 < 100 -> 0 <= c2 < 100 -> 0 <= m < 100 -> 0 <= d < 100 ->
  0 <= h < 100 -> 0 <= i < 100 -> 0 <= x < 100 ->
  0 <= c1' < 100 -> 0 <= c2' < 100 -> 0 <= m' < 100 -> 0 <= d' < 100 ->
  0 <= h' < 100 -> 0 <= i' < 100 -> 0 <= x' < 100 ->
  String.compare (field_stamp c1 c2 m d h i x) (field_stamp c1' c2' m' d' h' i' x')
  = (field_key c1 c2 m d h i x ?= field_key c1' c2' m' d' h' i' x').
Proof.
  intros. unfold field_stamp, field_key.
  repeat first [rewrite compare_digits by assumption | rewrite compare_sep].
  rewrite string_compare_refl, lexc_eq_r.
  rewrite !compare_lex by lia. reflexivity.
Qed.

Lemma year_fields (y : Z) :
  1000 <= y <= 9999 -> 0 <= y / 100 < 100 /\ 0 <= y mod 100 < 100.
Proof. intros H. Z.div_mod_to_equations. lia. Qed.

Lemma stamp_fields (now : datetime) :
  four_digit_year now ->
  exists c1 c2 m d h i x,
    (0 <= c1 < 100 /\ 0 <= c2 < 100 /\ 0 <= m < 100 /\ 0 <= d < 100 /\
     0 <= h < 100 /\ 0 <= i < 100 /\ 0 <= x < 100) /\
    strftime_stamp now +:+ ".json" = field_stamp c1 c2 m d h i x /\
    second_key (now / us_per_second) = field_key c1 c2 m d h i x.
Proof.
  unfold four_digit_year. intros Hr.
  unfold strftime_stamp, second_key.
  destruct (stamp_seconds now) as [Hd Hs]. rewrite Hd, Hs.
  assert (Hz : -354285 <= now / us_per_second / 86400 <= 2932896).
  { rewrite <- Hd. clear Hd Hs. unfold us_per_day, us_per_second in *.
    Z.div_mod_to_equations. lia. }
  clear Hd Hs Hr. set (s := now / us_per_second) in *. clearbody s.
  pose proof (civil_fields _ Hz) as Hc. unfold date_key.
  destruct (civil_from_days (s / 86400)) as [[y m] d].
  cbn [fst snd] in *. destruct Hc as (Hy & Hm & Hdd).
  assert (Hr : 0 <= s mod 86400 < 86400) by (apply Z.mod_pos_bound; lia).
  destruct (time_fields _ Hr) as (Hh & Hi & Hx).
  destruct (year_fields y Hy) as [Hc1 Hc2].
  exists (y / 100), (y mod 100), m, d, (s mod 86400 / 3600), (s mod 86400 / 60 mod 60),
    (s mod 86400 mod 60).
  split; [repeat split; lia |]. split.
  - unfold field_stamp. rewrite (four_digits y Hy). by rewrite <- !append_assoc.
  - unfold field_key, time_key. pose proof (Z.div_mod y 100 ltac:(lia)) as Hyd.
    clear - Hyd. set (a := y / 100) in *. set (b := y mod 100) in *.
    clearbody a b. subst y. lia.
Qed.

Lemma stamp_compare (t1 t2 : datetime) :
  four_digit_year t1 -> four_digit_year t2 ->
  String.compare (strftime_stamp t1 +:+ ".json") (strftime_stamp t2 +:+ ".json")
  = (second_key (t1 / us_per_second) ?= second_key (t2 / us_per_second)).
Proof.
  intros H1 H2.
  destruct (stamp_fields t1 H1) as (c1 & c2 & m & d & h & i & x & Hb & -> & ->).
  destruct (stamp_fields t2 H2) as (c1' & c2' & m' & d' & h' & i' & x' & Hb' & -> & ->).
  destruct Hb as (? & ? & ? & ? & ? & ? & ?), Hb' as (? & ? & ? & ? & ? & ? & ?).
  by apply field_stamp_compare.
Qed.

(** X19.  File names order as the seconds that named them: for two
    instants with a four-digit year, the snapshot names compare (as
    strings) exactly as the whole seconds of the instants do.  So an
    earlier second gives a name that sorts before, and two saves share a
    name exactly when they fall in the same second. *)
Theorem file_names_order_as_seconds (t1 t2 : datetime) :
  four_digit_year t1 -> four_digit_year t2 ->
  String.compare (strftime_stamp t1 +:+ ".json") (strftime_stamp t2 +:+ ".json")
  = (t1 / us_per_second ?= t2 / us_per_second).
Proof.
  intros H1 H2. rewrite (stamp_compare t1 t2 H1 H2).
  destruct (Z.compare_spec (t1 / us_per_second) (t2 / us_per_second)) as [-> | Hlt | Hgt].
  - apply Z.compare_refl.
  - apply Z.compare_lt_iff. by apply second_key_mono.
  - apply Z.compare_gt_iff. by apply second_key_mono.
Qed.

Lemma stamp_leb (t1 t2 : datetime) :
  four_digit_year t1 -> four_digit_year t2 -> t1 <= t2 ->
  String.leb (strftime_stamp t1 +:+ ".json") (strftime_stamp t2 +:+ ".json") = true.
Proof.
  intros H1 H2 Hle. unfold String.leb. rewrite (stamp_compare t1 t2 H1 H2).
  assert (Hs : t1 / us_per_second <= t2 / us_per_second)
    by (apply Z.div_le_mono; [unfold us_per_second |]; lia).
  destruct (decide (t1 / us_per_second = t2 / us_per_second)) as [-> | Hne].
  - by rewrite Z.compare_refl.
  - by rewrite (proj2 (Z.compare_lt_iff _ _)) by (apply second_key_mono; lia).
Qed.

Section Operations.

Variable json_dumps : pyval -> result string.
Variable json_loads : string -> result pyval.
Variable exc_text : exn -> string.
Variable py_str : pyval -> string.
Variable error_result : string -> result ToolResult.

#[local] Set Default Proof Using "Type".

#[local] Abbreviation execute' :=
  (execute json_dumps json_loads exc_text py_str error_result).

(** What the [except Exception] clause of [execute] makes of the outcome
    of the [try] block. *)
#[local] Abbreviation guarded operation r :=
  (match r with
   | Ok res => Ok res
   | Raise e =>
       error_result ("session_state " +:+ py_str operation +:+ " failed: " +:+ exc_text e)
   end).

Lemma save_state_effect (coordinator : pyval) (input : list (string * pyval))
    (now : datetime) (fs : filesystem) :
  let r := _save_state json_dumps error_result coordinator input now fs in
  (missing_fields input <> [] /\
   r = (fs, error_result ("save_state requires: " +:+ join ", " (missing_fields input)))) \/
  (missing_fields input = [] /\
   ((exists e, r = (Some (mkdir fs), Raise e)) \/
    (exists d m, r = (Some d, Ok (output_result m))))).
Proof.
  clear json_loads exc_text py_str.
  unfold _save_state. destruct (missing_fields input) as [|f rest].
  - right. split; [reflexivity |].
    destruct (do state <- build_state input coordinator now; json_dumps state) as [text|e].
    + right. destruct (_prune_old_states _ now) as [after pruned]. eauto.
    + left. eauto.
  - left. split; [discriminate | reflexivity].
Qed.



(** The four ways through [execute]. *)
Lemma execute_dispatch (coordinator : pyval) (input : list (string * pyval))
    (now : datetime) (fs : filesystem) :
  let operation := dict_get input "operation" VNone in
  let saved := _save_state json_dumps error_result coordinator input now fs in
  let run := execute' coordinator input now fs in
  (operation = VStr "save_state" /\ run = (saved.1, guarded operation saved.2)) \/
  (operation = VStr "load_state" /\
   run = (fs, guarded operation (_load_state json_dumps json_loads exc_text error_result fs))) \/
  (operation = VStr "list_states" /\ run = (fs, guarded operation (_list_states fs))) \/
  ((operation ∉ schema_enum INPUT_SCHEMA "operation") /\
   run = (fs, guarded operation
                (error_result ("Unknown operation: " +:+ py_str operation
                               +:+ ". Use save_state, load_state, or list_states.")))).
Proof.
  intros operation saved run. subst run saved. unfold execute. fold operation.
  destruct (str_eq operation "save_state") eqn:H1.
  { left. split; [by apply str_eq_true |]. by destruct (_save_state _ _ _ _ _ _). }
  destruct (str_eq operation "load_state") eqn:H2.
  { right. left. split; [by apply str_eq_true | reflexivity]. }
  destruct (str_eq operation "list_states") eqn:H3.
  { right. right. left. split; [by apply str_eq_true | reflexivity]. }
  right. right. right. split; [|reflexivity].
  intros Hin. apply enum_operations in Hin as [Hin | [Hin | Hin]];
    apply str_eq_true in Hin; congruence.
Qed.

(** X9.  [execute] changes the file system only through a save that passed
    validation; every other call, a load, a listing, an unknown operation
    or a rejected save, leaves it exactly as it was.  In no case does an
    existing state directory disappear. *)
Theorem execute_effects (coordinator : pyval) (input : list (string * pyval))
    (now : datetime) (fs : filesystem) :
  let after := (execute' coordinator input now fs).1 in
  (after = fs \/
   (dict_get input "operation" VNone = VStr "save_state" /\
    missing_fields input = [] /\ exists d, after = Some d)) /\
  (is_Some fs -> is_Some after).
Proof.
  intros after. subst after.
  destruct (execute_dispatch coordinator input now fs)
    as [[Hop ->] | [[_ ->] | [[_ ->] | [_ ->]]]]; cbn [fst];
    try (split; [by left | done]).
  destruct (save_state_effect coordinator input now fs)
    as [(Hm & ->) | (Hm & [[e ->] | (d & m & ->)])]; cbn [fst].
  - split; [by left | done].
  - split; [right; eauto | eauto].
  - split; [right; eauto | eauto].
Qed.



(** X12.  A load reads the snapshot whose name sorts last, and only that
    one: when its text parses, the output is the parsed document printed
    again; when it does not, the method ends in the
    [ToolResult(error=...)] call with the read error naming that file,
    whatever older snapshots there are. *)
Theorem load_reads_last_snapshot (d : gmap string entry) (name : string) (e : entry) :
  d !! name = Some e ->
  ends_with ".json" name = true ->
  (forall other e', d !! other = Some e' -> ends_with ".json" other = true ->
                    String.leb other name = true) ->
  (forall parsed text,
     json_loads (content e) = Ok parsed -> json_dumps parsed = Ok text ->
     _load_state json_dumps json_loads exc_text error_result (Some d)
       = Ok (output_result text)) /\
  (json_loads (content e) = Raise JSONDecodeError ->
   _load_state json_dumps json_loads exc_text error_result (Some d)
     = error_result ("Failed to read " +:+ STATE_DIR +:+ "/" +:+ name +:+ ": "
                     +:+ exc_text JSONDecodeError)).
Proof.
  clear py_str.
  intros Hl Hj Hmax. destruct (latest_is_head d name e Hl Hj Hmax) as [rest Hhead].
  unfold _load_state. rewrite Hhead. cbn [fst snd]. split.
  - intros parsed text -> Hd. cbn [bind]. by rewrite Hd.
  - by intros ->.
Qed.

(** X13.  A listing of a directory with snapshots names every snapshot
    once, newest name first, each with the byte length of its text, under
    a header that gives their number. *)
Theorem list_states_newest_first (d : gmap string entry) :
  glob_json d <> [] ->
  let files := sorted_reverse (glob_json d) in
    files ≡ₚ glob_json d /\
    StronglySorted (fun a b => String.leb b.1 a.1 = true) files /\
    _list_states (Some d) =
      Ok (output_result
            ("Found " +:+ pretty (Z.of_nat (length (glob_json d))) +:+ " state file(s):"
             +:+ newline
             +:+ join newline
                   (map (fun f => f.1 +:+ " (" +:+ pretty (Z.of_nat (String.length (content f.2)))
                                  +:+ " bytes)") files))).
Proof.
  clear json_dumps json_loads exc_text py_str error_result.
  intros Hne files. subst files.
  destruct (sorted_reverse_spec (glob_json d)) as [Hperm Hsorted].
  split; [exact Hperm |]. split; [exact Hsorted |].
  unfold _list_states.
  destruct (sorted_reverse (glob_json d)) as [|f files] eqn:Hs.
  - apply Permutation_nil_l in Hperm. congruence.
  - by rewrite <- (Permutation_length Hperm).
Qed.

(** X14.  Pruning reports what it did and is idempotent: the count it
    returns is the number of entries that left the directory, nothing is
    added or altered, and pruning again at the same time removes nothing
    more. *)
Theorem prune_count_and_idempotence (d : gmap string entry) (now : datetime) :
  let r := _prune_old_states d now in
  Z.of_nat (size d) = Z.of_nat (size (fst r)) + snd r /\
  fst r ⊆ d /\
  _prune_old_states (fst r) now = (fst r, 0).
Proof.
  clear json_dumps json_loads exc_text py_str error_result.
  intros r. subst r. rewrite !prune_old_states_spec. cbn [fst snd].
  set (cutoff := now - timedelta_days PRUNE_DAYS).
  split; [|split].
  - rewrite <- !length_map_to_list.
    rewrite (map_to_list_filter_perm (fun f => ~ prunable cutoff f) d).
    rewrite (filter_split_length (prunable cutoff) (map_to_list d)). lia.
  - apply map_filter_subseteq.
  - f_equal.
    + apply map_filter_id. intros n e He.
      by apply map_lookup_filter_Some in He as [_ He].
    + rewrite filter_none; [reflexivity |].
      intros [n e] Hin. apply elem_of_map_to_list in Hin.
      by apply map_lookup_filter_Some in Hin as [_ Hin].
Qed.

(** X15.  Saving into a store that already holds snapshots and loading
    right after returns the document just saved, as long as the new file
    name sorts after the names of the snapshots already there (and the
    JSON library reads the written text back as the document). *)
Theorem save_then_load_latest (coordinator : pyval) (input : list (string * pyval))
    (now : datetime) (fs : filesystem) (state : pyval) (text : string) :
  missing_fields input = [] ->
  build_state input coordinator now = Ok state ->
  json_dumps state = Ok text ->
  json_loads (text +:+ newline) = Ok state ->
  (forall other e, mkdir fs !! other = Some e -> ends_with ".json" other = true ->
                   String.leb other (strftime_stamp now +:+ ".json") = true) ->
  _load_state json_dumps json_loads exc_text error_result
    (fst (_save_state json_dumps error_result coordinator input now fs))
  = Ok (output_result text).
Proof.
  clear py_str.
  intros Hmiss Hstate Htext Hloads Hmax.
  rewrite (save_state_ok json_dumps error_result coordinator input now fs text Hmiss)
    by (by rewrite Hstate).
  cbn [fst]. set (filename := strftime_stamp now +:+ ".json") in *.
  destruct (written_not_prunable (mkdir fs) filename (text +:+ newline) now)
    as (file & Hfile & Hcontent & _ & Hnp).
  set (written := write_text (mkdir fs) filename (text +:+ newline) now) in *.
  set (after := filter _ written).
  assert (Hafter : after !! filename = Some file) by (by apply map_lookup_filter_Some).
  destruct (latest_is_head after filename file Hafter) as [rest Hhead].
  { apply ends_with_append. }
  { intros other e Ho Hj. apply map_lookup_filter_Some in Ho as [Ho _].
    unfold written, write_text in Ho. apply lookup_insert_Some in Ho as [[<- _] | [_ Ho]].
    - apply leb_refl.
    - by apply (Hmax other e). }
  unfold _load_state. rewrite Hhead. cbn [fst snd]. rewrite Hcontent, Hloads.
  cbn [bind]. by rewrite Htext.
Qed.

(** X16.  Two saves within the same second collide on the file name and
    the last write wins: starting from an empty store, after both there is
    one snapshot, holding the second document and the second time, and the
    second save reports nothing pruned. *)
Theorem same_second_last_write_wins (coordinator : pyval)
    (input1 input2 : list (string * pyval)) (now1 now2 : datetime)
    (fs : filesystem) (text1 text2 : string) :
  fs = None \/ fs = Some ∅ ->
  missing_fields input1 = [] -> missing_fields input2 = [] ->
  (do state <- build_state input1 coordinator now1 ; json_dumps state) = Ok text1 ->
  (do state <- build_state input2 coordinator now2 ; json_dumps state) = Ok text2 ->
  strftime_stamp now1 = strftime_stamp now2 ->
  let first := _save_state json_dumps error_result coordinator input1 now1 fs in
  let second := _save_state json_dumps error_result coordinator input2 now2 (fst first) in
  let filename := strftime_stamp now2 +:+ ".json" in
  second =
    (Some {[filename := {| content := text2 +:+ newline; mtime := now2; protected := false |}]},
     Ok (output_result ("State saved to " +:+ path_str filename))).
Proof.
  clear json_loads exc_text py_str.
  intros Hfs Hm1 Hm2 Ht1 Ht2 Hstamp first second filename.
  assert (Hsingle : forall input now d text file0,
            missing_fields input = [] ->
            (do state <- build_state input coordinator now ; json_dumps state) = Ok text ->
            (d = None \/ d = Some ∅ \/
             (d = Some {[strftime_stamp now +:+ ".json" := file0]} /\ protected file0 = false)) ->
            _save_state json_dumps error_result coordinator input now d =
              (Some {[strftime_stamp now +:+ ".json" :=
                        {| content := text +:+ newline; mtime := now; protected := false |}]},
               Ok (output_result
                     ("State saved to " +:+ path_str (strftime_stamp now +:+ ".json"))))).
  { intros input now d text file0 Hm Ht Hd.
    rewrite (save_state_ok json_dumps error_result coordinator input now d text Hm Ht).
    set (name := strftime_stamp now +:+ ".json").
    set (file := {| content := text +:+ newline; mtime := now; protected := false |}).
    assert (Hw : write_text (mkdir d) name (text +:+ newline) now = {[name := file]}).
    { unfold write_text. destruct Hd as [-> | [-> | [-> Hp]]]; cbn [mkdir].
      - rewrite lookup_empty. apply insert_empty.
      - rewrite lookup_empty. apply insert_empty.
      - rewrite lookup_singleton_eq, Hp. apply insert_singleton_eq. }
    assert (Hnp : ~ prunable (now - timedelta_days PRUNE_DAYS) (name, file)).
    { intros [[_ Hlt] _]. cbn in Hlt.
      unfold timedelta_days, PRUNE_DAYS, us_per_day, us_per_second in Hlt. lia. }
    rewrite Hw. rewrite map_filter_singleton_True by exact Hnp.
    rewrite map_to_list_singleton, filter_cons_False by exact Hnp.
    rewrite filter_nil. cbn [length Z.of_nat pruned_suffix Z.eqb].
    by rewrite append_nil_r. }
  subst second first.
  rewrite (Hsingle input1 now1 fs text1
             {| content := EmptyString; mtime := 0; protected := false |} Hm1 Ht1)
    by (destruct Hfs; auto).
  cbn [fst]. rewrite Hstamp. subst filename.
  eapply Hsingle; [exact Hm2 | exact Ht2 |]. right. right. split; reflexivity.
Qed.

(** X17.  A save that passes validation and then fails to serialise
    leaves the state directory in place (created if it was missing) with no
    file written and nothing pruned, and [execute] ends in the
    [ToolResult(error=...)] call with the failure text of the exception.
    On a fresh store, the load that follows then reports an empty
    directory, not a missing one. *)
Theorem failed_save_leaves_directory (coordinator : pyval) (input : list (string * pyval))
    (now : datetime) (fs : filesystem) (e : exn) :
  dict_get input "operation" VNone = VStr "save_state" ->
  missing_fields input = [] ->
  (do state <- build_state input coordinator now ; json_dumps state) = Raise e ->
  execute' coordinator input now fs =
    (Some (mkdir fs),
     error_result ("session_state " +:+ py_str (VStr "save_state") +:+ " failed: "
                   +:+ exc_text e)) /\
  (forall d, fs = Some d -> mkdir fs = d) /\
  (fs = None ->
   _load_state json_dumps json_loads exc_text error_result (Some (mkdir fs))
     = Ok (output_result "No state files found. This appears to be a fresh session.")).
Proof.
  intros Hop Hm He. split; [|split].
  - unfold execute. rewrite Hop. cbn [str_eq].
    change (String.eqb "save_state" "save_state") with true. cbn iota.
    unfold _save_state. by rewrite Hm, He.
  - by intros d ->.
  - by intros ->.
Qed.

(** X18.  The document of a save that passed validation never fails on a
    missing key, and it has a fixed shape: version 1, the ISO timestamp,
    the three required fields as given (each truthy), [decisions] and
    [context] only when the input has a truthy one, and [session_id] only
    when the coordinator supplies a truthy one. *)
Theorem build_state_document (coordinator : pyval) (input : list (string * pyval))
    (now : datetime) :
  missing_fields input = [] ->
  exists doc,
    build_state input coordinator now = Ok (VDict doc) /\
    assoc "version" doc = Some (VInt 1) /\
    assoc "timestamp" doc = Some (VStr (isoformat now)) /\
    (forall k, k ∈ required_fields ->
       assoc k doc = assoc k input /\ truthy (dict_get doc k VNone) = true) /\
    (forall k, k ∈ ["decisions"; "context"] ->
       assoc k doc = if truthy (dict_get input k VNone) then assoc k input else None) /\
    assoc "session_id" doc =
      (if truthy (_get_session_id coordinator) then Some (_get_session_id coordinator)
       else None).
Proof.
  clear json_dumps json_loads exc_text py_str error_result.
  intros Hm.
  assert (Hreq : forall k, k ∈ required_fields ->
            exists v, assoc k input = Some v /\ dict_item input k = Ok v /\ truthy v = true).
  { intros k Hk. apply truthy_item. by apply missing_none. }
  destruct (Hreq "summary") as (vs & Hs & Hsi & Hst); [unfold required_fields; repeat constructor |].
  destruct (Hreq "accomplished") as (va & Ha & Hai & Hat); [unfold required_fields; repeat constructor |].
  destruct (Hreq "remaining") as (vr & Hr & Hri & Hrt); [unfold required_fields; repeat constructor |].
  unfold build_state, add_optional. rewrite Hsi, Hai, Hri. cbn [bind].
  destruct (truthy (dict_get input "decisions" VNone)) eqn:Hd;
    [destruct (truthy_item _ _ Hd) as (vd & Hda & Hdi & _); rewrite Hdi |];
    cbn [bind];
    (destruct (truthy (dict_get input "context" VNone)) eqn:Hc;
     [destruct (truthy_item _ _ Hc) as (vc & Hca & Hci & _); rewrite Hci |]);
    cbn [bind];
    destruct (truthy (_get_session_id coordinator));
    eexists; (split; [reflexivity |]);
    (split; [reflexivity |]); (split; [reflexivity |]);
    (split; [|split; [|reflexivity]]);
    intros k Hk; unfold required_fields in Hk;
    rewrite !elem_of_cons, elem_of_nil in Hk;
    decompose [or] Hk; try subst k; try done;
    rewrite ?Hd, ?Hc; cbn;
    try rewrite Hs; try rewrite Ha; try rewrite Hr;
    try rewrite Hda; try rewrite Hca; done.
Qed.

(** X20.  Saves made in chronological order keep the newest snapshot
    last: if every snapshot in the store was named by a save made at [now]
    or before, then after a save at a later instant [now'] (whatever its
    input, accepted or not) the same holds for [now'], and no snapshot
    name sorts after the name of [now']. *)
Theorem chronological_names (coordinator : pyval) (input : list (string * pyval))
    (now now' : datetime) (fs : filesystem) :
  four_digit_year now' ->
  now <= now' ->
  named_before now fs ->
  let after := fst (_save_state json_dumps error_result coordinator input now' fs) in
  named_before now' after /\
  (forall name e, mkdir after !! name = Some e -> ends_with ".json" name = true ->
     String.leb name (strftime_stamp now' +:+ ".json") = true).
Proof.
  clear json_loads exc_text py_str.
  intros Hr Hle Hnb after.
  assert (Hold : named_before now' fs).
  { intros name e Hl Hj. destruct (Hnb name e Hl Hj) as (t & Ht & Htn & Hname).
    exists t. repeat split; [apply Ht | apply Ht | lia | exact Hname]. }
  assert (Hnew : named_before now' after).
  { unfold after, _save_state. destruct (missing_fields input); [|exact Hold].
    destruct (do state <- build_state input coordinator now'; json_dumps state)
      as [text|e]; [|exact Hold].
    rewrite prune_old_states_spec. cbn [fst mkdir].
    intros name e Hl Hj. apply map_lookup_filter_Some in Hl as [Hl _].
    unfold write_text in Hl. apply lookup_insert_Some in Hl as [[<- _] | [_ Hl]].
    - exists now'. repeat split; [apply Hr | apply Hr | lia].
    - exact (Hold name e Hl Hj). }
  split; [exact Hnew |].
  intros name e Hl Hj. destruct (Hnew name e Hl Hj) as (t & Ht & Htn & ->).
  by apply stamp_leb.
Qed.

End Operations.


Lemma load_reads_last_snapshot_witness :
  let name := "2026-11-01T09-00-00.json" in
  let e := {| content := "{}"; mtime := sample_now - timedelta_days 3; protected := false |} in
  sample_directory !! name = Some e /\
  ends_with ".json" name = true /\
  (forall other e', sample_directory !! other = Some e' ->
                    ends_with ".json" other = true -> String.leb other name = true) /\
  sample_loads [VDict []] (content e) = Ok (VDict []) /\
  _load_state sample_dumps (sample_loads [VDict []]) sample_exc_text refused_error
    (Some sample_directory)
    = Ok (output_result "{}").
Proof.
  intros name e.
  assert (Hmax : forall other e', sample_directory !! other = Some e' ->
                   ends_with ".json" other = true -> String.leb other name = true).
  { intros other e' Hl Hj. unfold sample_directory in Hl.
    apply elem_of_list_to_map_2 in Hl.
    rewrite !elem_of_cons, elem_of_nil in Hl.
    destruct Hl as [[= -> _] | [[= -> _] | [[= -> _] | [[= -> _] | []]]]];
      try reflexivity; discriminate Hj. }
  split; [reflexivity |]. split; [reflexivity |]. split; [exact Hmax |].
  split; [reflexivity |].
  exact (proj1 (load_reads_last_snapshot sample_dumps (sample_loads [VDict []])
                  sample_exc_text refused_error sample_directory name e eq_refl eq_refl Hmax)
           (VDict []) "{}" eq_refl eq_refl).
Defined.

Lemma file_names_order_as_seconds_witness :
  let later := sample_now + 60000000 in
  four_digit_year sample_now /\ four_digit_year later /\
  String.compare (strftime_stamp sample_now +:+ ".json") (strftime_stamp later +:+ ".json")
  = Lt.
Proof.
  intros later.
  assert (H1 : four_digit_year sample_now)
    by (unfold four_digit_year, us_per_day, us_per_second, sample_now; lia).
  assert (H2 : four_digit_year later)
    by (unfold later, four_digit_year, us_per_day, us_per_second, sample_now; lia).
  split; [exact H1 |]. split; [exact H2 |].
  exact (file_names_order_as_seconds sample_now later H1 H2).
Defined.

Lemma chronological_names_witness :
  let later := sample_now + 60000000 in
  let first :=
    fst (_save_state sample_dumps refused_error sample_coordinator sample_input sample_now None) in
  let second :=
    fst (_save_state sample_dumps refused_error sample_coordinator sample_input later first) in
  four_digit_year later /\ sample_now <= later /\ named_before sample_now first /\
  named_before later second /\
  (forall name e, mkdir second !! name = Some e -> ends_with ".json" name = true ->
     String.leb name (strftime_stamp later +:+ ".json") = true).
Proof.
  intros later first second.
  assert (H0 : named_before sample_now None).
  { intros name e Hl. cbn [mkdir] in Hl. rewrite lookup_empty in Hl. discriminate Hl. }
  assert (H1 : four_digit_year sample_now)
    by (unfold four_digit_year, us_per_day, us_per_second, sample_now; lia).
  assert (H2 : four_digit_year later)
    by (unfold later, four_digit_year, us_per_day, us_per_second, sample_now; lia).
  assert (Hle : sample_now <= later) by (unfold later; lia).
  pose proof (proj1 (chronological_names sample_dumps refused_error sample_coordinator sample_input
                       sample_now sample_now None H1 (Z.le_refl _) H0)) as Hfirst.
  split; [exact H2 |]. split; [exact Hle |]. split; [exact Hfirst |].
  exact (chronological_names sample_dumps refused_error sample_coordinator sample_input
           sample_now later first H2 Hle Hfirst).
Defined.

Lemma sample_directory_names (other : string) (e : entry) :
  sample_directory !! other = Some e -> ends_with ".json" other = true ->
  String.leb other "2026-11-04T01-50-00.json" = true.
Proof.
  intros Hl Hj. unfold sample_directory in Hl.
  apply elem_of_list_to_map_2 in Hl.
  rewrite !elem_of_cons, elem_of_nil in Hl.
  destruct Hl as [[= -> _] | [[= -> _] | [[= -> _] | [[= -> _] | []]]]];
    try reflexivity; discriminate Hj.
Qed.

Lemma save_then_load_latest_witness :
  missing_fields sample_input = [] /\
  build_state sample_input sample_coordinator sample_now = Ok sample_state /\
  (forall other e, mkdir (Some sample_directory) !! other = Some e ->
                   ends_with ".json" other = true ->
                   String.leb other (strftime_stamp sample_now +:+ ".json") = true) /\
  exists text,
    sample_dumps sample_state = Ok text /\
    sample_loads [sample_state] (text +:+ newline) = Ok sample_state /\
    _load_state sample_dumps (sample_loads [sample_state]) sample_exc_text refused_error
      (fst (_save_state sample_dumps refused_error sample_coordinator sample_input sample_now
              (Some sample_directory)))
    = Ok (output_result text).
Proof.
  split; [reflexivity |]. split; [reflexivity |].
  split; [exact sample_directory_names |].
  eexists. split; [reflexivity |]. split; [reflexivity |].
  exact (save_then_load_latest sample_dumps (sample_loads [sample_state]) sample_exc_text refused_error sample_coordinator sample_input sample_now (Some sample_directory)
           sample_state _ eq_refl eq_refl eq_refl eq_refl sample_directory_names).
Defined.

Lemma same_second_last_write_wins_witness :
  let later := sample_now + 500000 in
  let input2 := [("summary", VStr "second"); ("accomplished", VList [VStr "a"]);
                 ("remaining", VList [VStr "b"])] in
  strftime_stamp sample_now = strftime_stamp later /\
  missing_fields sample_input = [] /\ missing_fields input2 = [] /\
  exists text1 text2,
    (do state <- build_state sample_input sample_coordinator sample_now ;
     sample_dumps state) = Ok text1 /\
    (do state <- build_state input2 sample_coordinator later ; sample_dumps state)
      = Ok text2 /\
    _save_state sample_dumps refused_error sample_coordinator input2 later
      (fst (_save_state sample_dumps refused_error sample_coordinator sample_input sample_now None))
    = (Some {["2026-11-04T01-50-00.json" :=
                {| content := text2 +:+ newline; mtime := later; protected := false |}]},
       Ok (output_result "State saved to .session-state/2026-11-04T01-50-00.json")).
Proof.
  intros later input2. split; [reflexivity |]. split; [reflexivity |].
  split; [reflexivity |]. eexists _, _. split; [reflexivity |]. split; [reflexivity |].
  exact (same_second_last_write_wins sample_dumps refused_error sample_coordinator sample_input input2
           sample_now later None _ _ (or_introl eq_refl) eq_refl eq_refl eq_refl eq_refl
           eq_refl).
Defined.

Lemma failed_save_leaves_directory_witness :
  dict_get unserialisable_input "operation" VNone = VStr "save_state" /\
  missing_fields unserialisable_input = [] /\
  (do state <- build_state unserialisable_input sample_coordinator sample_now ;
   sample_dumps state) = Raise TypeError /\
  execute sample_dumps (sample_loads []) sample_exc_text sample_str text_error
    sample_coordinator unserialisable_input sample_now None
  = (Some ∅, text_error "session_state save_state failed: TypeError").
Proof.
  split; [reflexivity |]. split; [reflexivity |]. split; [reflexivity |].
  exact (proj1 (failed_save_leaves_directory sample_dumps (sample_loads []) sample_exc_text
                  sample_str text_error sample_coordinator unserialisable_input sample_now
                  None TypeError eq_refl eq_refl eq_refl)).
Defined.

Lemma build_state_document_witness :
  missing_fields sample_input = [] /\
  exists doc,
    build_state sample_input sample_coordinator sample_now = Ok (VDict doc) /\
    assoc "version" doc = Some (VInt 1) /\
    assoc "decisions" doc = None /\
    assoc "session_id" doc = Some (VStr "session-42").
Proof.
  split; [reflexivity |].
  destruct (build_state_document sample_coordinator sample_input sample_now eq_refl)
    as (doc & Hb & Hv & _ & _ & Hopt & Hsid).
  exists doc. split; [exact Hb |]. split; [exact Hv |]. split; [|exact Hsid].
  apply (Hopt "decisions"). repeat constructor.
Defined.

Lemma list_states_newest_first_witness :
  glob_json sample_directory <> [] /\
  _list_states (Some sample_directory) =
    Ok (output_result
          ("Found 3 state file(s):" +:+ newline
           +:+ "2026-11-01T09-00-00.json (2 bytes)" +:+ newline
           +:+ "2026-10-02T09-00-00.json (2 bytes)" +:+ newline
           +:+ "2026-10-01T09-00-00.json (2 bytes)")).
Proof.
  assert (H : glob_json sample_directory <> []) by (vm_compute; discriminate).
  split; [exact H |].
  exact (proj2 (proj2 (list_states_newest_first sample_directory H))).
Defined.

End StoreExtras.
